(** * cdat: the qtbrowser menu bar and the nightly installer

    A shallow embedding of
      - [Packages/qtbrowser/Lib/mainMenuWidget.py] (class [QMenuWidget]:
        the handlers [stats], [seasons] and [setBounds]), and
      - [scripts/install_nightly.py] (the three-step installer script),
    with the properties the specification states about them. *)

From Stdlib Require Import Floats.PrimFloat Floats.FloatOps Floats.FloatAxioms Floats.SpecFloat.
From Stdlib Require Import ZArith Ascii String.
From stdpp Require Import base strings list gmap pretty sorting.

Open Scope string_scope.

(** ** Python string operations used by the handlers *)

Module PyStr.

(** [str.lower] on a byte string: the letters A-Z move to a-z. *)
Definition lower_ascii (c : ascii) : ascii :=
  let n := nat_of_ascii c in
  if (65 <=? n)%nat && (n <=? 90)%nat then ascii_of_nat (n + 32) else c.

Fixpoint lower (s : string) : string :=
  match s with
  | EmptyString => EmptyString
  | String c s' => String (lower_ascii c) (lower s')
  end.

(** The characters [str.split()] treats as separators:
    space, tab, newline, vertical tab, form feed, carriage return. *)
Definition isspace (c : ascii) : bool :=
  let n := nat_of_ascii c in
  (n =? 32)%nat || ((9 <=? n)%nat && (n <=? 13)%nat).

Definition is_empty (s : string) : bool :=
  match s with EmptyString => true | String _ _ => false end.

(** [s.split()] with no argument: the maximal runs of non-space characters,
    in order.  [cur] is the word being read. *)
Fixpoint split_from (cur : string) (s : string) : list string :=
  match s with
  | EmptyString => if is_empty cur then [] else [cur]
  | String c s' =>
      if isspace c
      then (if is_empty cur then split_from "" s' else cur :: split_from "" s')
      else split_from (cur +:+ String c "") s'
  end.

Definition split (s : string) : list string := split_from "" s.

(** [sep.join(words)]. *)
Fixpoint join (sep : string) (words : list string) : string :=
  match words with
  | [] => ""
  | [w] => w
  | w :: ws => w +:+ sep +:+ join sep ws
  end.

(** The reading of "all whitespace removed": drop every separator character. *)
Fixpoint remove_whitespace (s : string) : string :=
  match s with
  | EmptyString => EmptyString
  | String c s' => if isspace c then remove_whitespace s' else String c (remove_whitespace s')
  end.

End PyStr.

(** ** The menu bar: [mainMenuWidget.py] *)

Module MainMenuWidget.

(** *** Data *)

(** An object of an external library is named by its dotted attribute path,
    e.g. [cdutil.times.YEAR.climatology]. *)
Definition Path : Type := list string.

(** The gridded data behind a variable.  The numerical work is done by the
    external library, so a result is kept symbolically: the callable that
    produced it and the data it was applied to. *)
Inductive Data : Type :=
| Source (tag : nat)
| Applied (f : Path) (d : Data).

(** A defined variable: its [id] attribute and its data. *)
Record Var : Type := mkVar { var_id : string; var_data : Data }.

(** Arguments of the calls into [cdutil.times]: the variable itself, an
    integer literal (2, 4, 24) or the float read from the dialog. *)
Inductive Arg : Type :=
| AVar (v : Var)
| AInt (n : Z)
| AFloat (x : float).

(** One call into the external library. *)
Record ExtCall : Type := mkCall { callee : Path; call_args : list Arg }.

(** The entries of [statsFuncs] (lines 63-78). *)
Inductive ChoiceValue : Type := CNone | CLen | CInt (n : Z).

Inductive Choice : Type :=
| Flag (name : string)
| Valued (name : string) (values : list ChoiceValue).

Record StatDef : Type := mkStatDef {
  func : Path;
  nargsMin : nat;
  nargsMax : nat;
  choices : option (list Choice)   (* [None]: the dict has no "choices" key *)
}.

(** Modelled from the spec: [preFunctionPopUpWidget.preFuncPopUp] is not among
    the sources; the spec describes it as "a statistics-configuration popup
    taking an operation descriptor and displaying its own UI".  The popup
    keeps the descriptor it was built with and whether it is shown. *)
Record preFuncPopUp : Type := mkPopUp { defs : StatDef; visible : bool }.

(** [QtGui.QInputDialog()]: a dialog object with no state of interest. *)
Inductive QInputDialog : Type := mkInputDialog.

(** A menu of the bar: its title and the labels of its actions, in order. *)
Record Menu : Type := mkMenu { title : string; actions : list string }.

(** The attributes of [QMenuWidget] the handlers can reach.  [pop] and
    [bDialog] do not exist after [__init__]; an absent attribute is [None]. *)
Record QMenuWidget : Type := mkWidget {
  menus : list Menu;
  statsFuncs : gmap string StatDef;
  pop : option preFuncPopUp;
  bDialog : option QInputDialog
}.

(** What a triggered [QAction] tells the handler: [action.text()] and
    [action.parentWidget().title()]. *)
Record QAction : Type := mkAction { text : string; parentTitle : string }.

(** Everything a handler can read or change.  [recorder] is the session
    transcript behind [root.record]; [definedVars] is the variable pool
    behind [root.definedVar.widget] and [selectedVars] what
    [getSelectedDefinedVariables()] returns; [extCalls] lists the calls made
    into [cdutil.times] and [dialogs] the input dialogs shown (title and
    label), both in order. *)
Record World : Type := mkWorld {
  self : QMenuWidget;
  recorder : list string;
  definedVars : list Var;
  selectedVars : list Var;
  extCalls : list ExtCall;
  dialogs : list (string * string)
}.

(** *** Handlers run in a state monad with Python exceptions *)

Inductive Exn : Type :=
| AttributeError (attr : string)
| KeyError (key : string)
| NameError (name : string)
| TypeError (what : string)
| ExternalError (what : string).   (* an exception raised inside the external library *)

Inductive Result (A : Type) : Type :=
| Ok (a : A)
| Raise (e : Exn).
Arguments Ok {A} a.
Arguments Raise {A} e.

(** A raised exception keeps the changes made before it. *)
Definition M (A : Type) : Type := World → Result A * World.

#[global] Instance M_ret : MRet M := λ A a w, (Ok a, w).

#[global] Instance M_bind : MBind M := λ A B f m w,
  match m w with
  | (Ok a, w') => f a w'
  | (Raise e, w') => (Raise e, w')
  end.

Definition raise {A : Type} (e : Exn) : M A := λ w, (Raise e, w).

(** [for x in l: body]. *)
Fixpoint for_each {A : Type} (l : list A) (body : A → M unit) : M unit :=
  match l with
  | [] => mret tt
  | x :: l' => body x ;; for_each l' body
  end.

(** Modelled from the spec: [root.record] is not among the sources; the spec
    gives the recorder as "append line to transcript". *)
Definition record (line : string) : M unit := λ w,
  (Ok tt, mkWorld (self w) (recorder w ++ [line]) (definedVars w)
                  (selectedVars w) (extCalls w) (dialogs w)).

(** Modelled from the spec: the variable-selection widget is not among the
    sources; it exposes "get currently selected variables" and the handlers
    add results "to the shared variable pool". *)
Definition getSelectedDefinedVariables : M (list Var) := λ w, (Ok (selectedVars w), w).

Definition addVariable (v : Var) : M unit := λ w,
  (Ok tt, mkWorld (self w) (recorder w) (definedVars w ++ [v])
                  (selectedVars w) (extCalls w) (dialogs w)).

(** A call [f(args)] into the external library, noted in [extCalls]. *)
Definition call (f : Path) (args : list Arg) : M unit := λ w,
  (Ok tt, mkWorld (self w) (recorder w) (definedVars w)
                  (selectedVars w) (extCalls w ++ [mkCall f args]) (dialogs w)).

(** [QInputDialog.getDouble(parent, title, label)]: shows the dialog and
    returns the user's answer [(val, ok)], which is an input of the run. *)
Definition getDouble (answer : float * bool) (ttl lbl : string) : M (float * bool) := λ w,
  (Ok answer, mkWorld (self w) (recorder w) (definedVars w)
                      (selectedVars w) (extCalls w) (dialogs w ++ [(ttl, lbl)])).

Definition set_self (s : QMenuWidget) : M unit := λ w,
  (Ok tt, mkWorld s (recorder w) (definedVars w)
                  (selectedVars w) (extCalls w) (dialogs w)).

Definition get_self : M QMenuWidget := λ w, (Ok (self w), w).

(** [self.bDialog = d] and [self.pop = p]. *)
Definition set_bDialog (d : QInputDialog) : M unit :=
  s ← get_self; set_self (mkWidget (menus s) (statsFuncs s) (pop s) (Some d)).

Definition set_pop (p : preFuncPopUp) : M unit :=
  s ← get_self; set_self (mkWidget (menus s) (statsFuncs s) (Some p) (bDialog s)).


(** [self.pop.show()]. *)
Definition pop_show : M unit :=
  s ← get_self;
  match pop s with
  | Some p => set_pop (mkPopUp (defs p) true)
  | None => raise (AttributeError "pop")
  end.

(** *** The attributes of [cdutil.times]

    [seasons] takes an attribute of the external module by name, may take
    the attribute's own [climatology] or [departures], calls what it has on
    each selected variable and sets the [id] of the result.  The module is
    not among the sources, and what its attributes are decides how far the
    handler gets. *)

(** What [func(v)] does (line 128), and whether [tmp.id = newid] can follow
    (line 133). *)
Inductive CallOutcome : Type :=
| NotCallable             (* [func(v)] raises [TypeError]; nothing is called *)
| CallRaises (e : Exn)    (* the call is made and raises [e] *)
| ReturnsPlain            (* the call returns an object whose [id] cannot be set, such as [None] *)
| ReturnsVariable.        (* the call returns a new variable *)

(** An object as [func]: what calling it on each variable does. *)
Definition Callable : Type := Var → CallOutcome.

(** An attribute of the module: what calling it does, and its attributes
    [climatology] and [departures] where it has them. *)
Record TimesAttr : Type := mkAttr {
  on_call : Callable;
  attr_climatology : option Callable;
  attr_departures : option Callable
}.

(** *** What [__init__] builds *)

(** The actions of the "Bounds Set" menu (lines 35-41). *)
Definition bounds_labels : list string :=
  [ "Set Bounds For Yearly Data";
    "Set Bounds For Monthly Data";
    "Set Bounds For Daily Data";
    "Set Bounds For Twice-daily Data";
    "Set Bounds For 6-Hourly Data";
    "Set Bounds For Hourly Data";
    "Set Bounds For X-Daily Data" ].

(** The titles of the three menus wired to [seasons] (line 44). *)
Definition season_menus : list string := ["Extract"; "Climatology"; "Departures"].

(** The actions each of them gets (lines 47-58; separators are not actions). *)
Definition season_labels : list string :=
  ["Annual Means"] ++
  ["Seasonal Means"] ++ ["DJF"; "MAM"; "JJA"; "SON"] ++
  ["Monthly Means";
   "JAN"; "FEB"; "MAR";
   "APR"; "MAY"; "JUN";
   "JUL"; "AUG"; "SEP";
   "OCT"; "NOV"; "DEC"].

Definition centered_biased_pct : option (list Choice) :=
  Some [Flag "centered"; Flag "biased"; Flag "max_pct_missingoptions"].

Definition lag : Choice := Valued "lag" [CNone; CLen].

Definition genutil_statistics (f : string) : Path := ["genutil"; "statistics"; f].

(** The [statsFuncs] dictionary (lines 63-78). *)
Definition statsFuncs_init : gmap string StatDef :=
  list_to_map
  [ ("Mean", mkStatDef ["cdutil"; "averager"] 1 2 None);
    ("Variance", mkStatDef (genutil_statistics "variance") 1 2 centered_biased_pct);
    ("Standard Deviation", mkStatDef (genutil_statistics "std") 1 2 centered_biased_pct);
    ("Root Mean Square", mkStatDef (genutil_statistics "rms") 2 3 centered_biased_pct);
    ("Correlation", mkStatDef (genutil_statistics "correlation") 2 3 centered_biased_pct);
    ("Lagged Corelation", mkStatDef (genutil_statistics "laggedcorrelation") 2 2
       (Some [Flag "centered"; Flag "partial"; Flag "biased"; Flag "noloop"; lag]));
    ("Covariance", mkStatDef (genutil_statistics "covariance") 2 3 centered_biased_pct);
    ("Lagged Covariance", mkStatDef (genutil_statistics "laggedcovariance") 2 2
       (Some [Flag "centered"; Flag "partial"; Flag "noloop"; lag]));
    ("Autocorrelation", mkStatDef (genutil_statistics "autocorrelation") 1 1
       (Some [Flag "centered"; Flag "partial"; Flag "biased"; Flag "noloop"; lag]));
    ("Autocovariance", mkStatDef (genutil_statistics "autocovariance") 1 1
       (Some [Flag "centered"; Flag "partial"; Flag "noloop"; lag]));
    ("Mean Absolute Difference", mkStatDef (genutil_statistics "meanabsdiff") 2 3
       (Some [Flag "centered"]));
    ("Linear Regression", mkStatDef (genutil_statistics "linearregression") 1 2
       (Some [Valued "error" [CInt 0; CInt 1; CInt 2; CInt 3];
              Flag "probability"; Flag "nointercept"; Flag "noslope"]));
    ("Geometric Mean", mkStatDef (genutil_statistics "geometricmean") 1 1 None);
    ("Median", mkStatDef (genutil_statistics "median") 1 1 None);
    ("Rank (in %)", mkStatDef (genutil_statistics "rank") 1 1 None) ].

(** [sorted(d.keys())] for a dictionary with string keys. *)
Definition sorted_keys {V : Type} (d : gmap string V) : list string :=
  merge_sort String.le (map fst (map_to_list d)).

(** The widget as [__init__] leaves it: the menus that are wired to a
    handler ("Bounds Set", the three season menus, and "Statistics" with
    one action per key of [statsFuncs], sorted), the statistics table, and
    neither [pop] nor [bDialog] set yet. *)
Definition init : QMenuWidget :=
  mkWidget
    (mkMenu "Bounds Set" bounds_labels
     :: map (λ t, mkMenu t season_labels) season_menus
     ++ [mkMenu "Statistics" (sorted_keys statsFuncs_init)])
    statsFuncs_init None None.

(** *** The handlers *)

Section Handlers.

(** The namespace of the external module [cdutil.times]: [times name] is
    the attribute [cdutil.times.<name>], or [None] when the module has no
    attribute of this name. *)
Variable times : string → option TimesAttr.

(** Python's ["%g" % val] for a float. *)
Variable fmt_g : float → string.

(** [cdutil.times.<name>] and [getattr(cdutil.times, name)]. *)
Definition times_attr (name : string) : M TimesAttr :=
  match times name with
  | Some o => mret o
  | None => raise (AttributeError name)
  end.

(** [func.climatology] and [func.departures] (lines 118, 122). *)
Definition get_attr (field : option Callable) (name : string) : M Callable :=
  match field with
  | Some c => mret c
  | None => raise (AttributeError name)
  end.

(** [tmp = func(v)] (line 128), [func] being the object at [fpath]. *)
Definition apply_func (func : Callable) (fpath : Path) (v : Var) : M (option Data) :=
  match func v with
  | NotCallable => raise (TypeError "object is not callable")
  | CallRaises e => call fpath [AVar v];; raise e
  | ReturnsPlain => call fpath [AVar v];; mret None
  | ReturnsVariable => call fpath [AVar v];; mret (Some (Applied fpath (var_data v)))
  end.

(** [tmp.id = newid] (line 133). *)
Definition set_id (tmp : option Data) (newid : string) : M Var :=
  match tmp with
  | Some d => mret (mkVar newid d)
  | None => raise (AttributeError "id")
  end.

(** [stats] (lines 94-97). *)
Definition stats (action : QAction) : M unit :=
  let nm := text action in
  s ← get_self;
  match statsFuncs s !! nm with
  | None => raise (KeyError nm)
  | Some d =>
      set_pop (mkPopUp d false);;
      pop_show
  end.

(** The body of the loop of [seasons] (lines 128-136). *)
Definition seasons_body (menu nm : string) (func : Callable) (fpath : Path)
    (funcnm rec : string) (v : Var) : M unit :=
  tmp ← apply_func func fpath v;
  let ext := PyStr.join "" (PyStr.split (PyStr.lower nm)) in
  let newid := var_id v +:+ "_" +:+ ext in
  let newid := if negb (String.eqb menu "Extract") then newid +:+ PyStr.lower menu else newid in
  tmp ← set_id tmp newid;
  addVariable tmp;;
  record rec;;
  record (newid +:+ " = " +:+ funcnm +:+ "(" +:+ var_id v +:+ ")").

(** [seasons] (lines 99-136). *)
Definition seasons (action : QAction) : M unit :=
  let menu := parentTitle action in
  let nm := text action in
  let rec := "## Computing " in
  '(attr, fpath, funcnm) ←
    (if String.eqb nm "Annual Means" then
       attr ← times_attr "YEAR";
       mret (attr, ["cdutil"; "times"; "YEAR"], "cdutil.times.YEAR")
     else if String.eqb nm "Seasonal Means" then
       attr ← times_attr "SEASONALCYCLE";
       mret (attr, ["cdutil"; "times"; "SEASONALCYCLE"], "cdutil.times.SEASONALCYCLE")
     else if String.eqb nm "Monthly Means" then
       attr ← times_attr "ANNUALCYCLE";
       mret (attr, ["cdutil"; "times"; "ANNUALCYCLE"], "cdutil.times.ANNUALCYCLE")
     else
       attr ← times_attr nm;
       mret (attr, ["cdutil"; "times"; nm], "cdutil.times." +:+ nm));
  '(func, fpath, funcnm, rec) ←
    (if String.eqb menu "Climatology" then
       func ← get_attr (attr_climatology attr) "climatology";
       mret (func, (fpath ++ ["climatology"])%list, funcnm +:+ ".climatology",
             "climatological ")
     else if String.eqb menu "Departures" then
       func ← get_attr (attr_departures attr) "departures";
       mret (func, (fpath ++ ["departures"])%list, funcnm +:+ ".departures",
             "departures from ")
     else mret (on_call attr, fpath, funcnm, rec));
  let rec := rec +:+ PyStr.lower nm in
  selectedVars ← getSelectedDefinedVariables;
  for_each selectedVars (seasons_body menu nm func fpath funcnm rec).

Definition setTimeBoundsYearly : Path := ["cdutil"; "times"; "setTimeBoundsYearly"].
Definition setTimeBoundsMonthly : Path := ["cdutil"; "times"; "setTimeBoundsMonthly"].
Definition setTimeBoundsDaily : Path := ["cdutil"; "times"; "setTimeBoundsDaily"].

(** The body of the loop of [setBounds] (lines 149-176).  [val] is bound
    only when the X-Daily dialog was answered. *)
Definition setBounds_body (nm : string) (val : option float) (v : Var) : M unit :=
  if String.eqb nm "Set Bounds For Yearly Data" then
    call setTimeBoundsYearly [AVar v];;
    record "## Set Bounds For Yearly Data";;
    record ("cdutil.times.setTimeBoundsYearly(" +:+ var_id v +:+ ")")
  else if String.eqb nm "Set Bounds For Monthly Data" then
    call setTimeBoundsMonthly [AVar v];;
    record "## Set Bounds For Monthly Data";;
    record ("cdutil.times.setTimeBoundsMonthly(" +:+ var_id v +:+ ")")
  else if String.eqb nm "Set Bounds For Daily Data" then
    call setTimeBoundsDaily [AVar v];;
    record "## Set Bounds For Daily Data";;
    record ("cdutil.times.setTimeBoundDaily(" +:+ var_id v +:+ ")")
  else if String.eqb nm "Set Bounds For Twice-daily Data" then
    call setTimeBoundsDaily [AVar v; AInt 2];;
    record "## Set Bounds For Twice-daily Data";;
    record ("cdutil.times.setTimeBoundDaily(" +:+ var_id v +:+ ",2)")
  else if String.eqb nm "Set Bounds For 6-Hourly Data" then
    call setTimeBoundsDaily [AVar v; AInt 4];;
    record "## Set Bounds For 6-Hourly Data";;
    record ("cdutil.times.setTimeBoundDaily(" +:+ var_id v +:+ ",4)")
  else if String.eqb nm "Set Bounds For Hourly Data" then
    call setTimeBoundsDaily [AVar v; AInt 24];;
    record "## Set Bounds For Hourly Data";;
    record ("cdutil.times.setTimeBoundDaily(" +:+ var_id v +:+ ",24)")
  else if String.eqb nm "Set Bounds For X-Daily Data" then
    match val with
    | Some val =>
        call setTimeBoundsDaily [AVar v; AFloat val];;
        record "## Set Bounds For X-Daily Data";;
        record ("cdutil.times.setTimeBoundDaily(" +:+ var_id v +:+ "," +:+ fmt_g val +:+ ")")
    | None => raise (NameError "val")
    end
  else mret tt.

(** Lines 147-176: what follows the dialog. *)
Definition setBounds_apply (nm : string) (val : option float) : M unit :=
  selectedVars ← getSelectedDefinedVariables;
  for_each selectedVars (setBounds_body nm val).

(** [setBounds] (lines 139-176).  [answer] is what the user answers if the
    frequency dialog is shown. *)
Definition setBounds (answer : float * bool) (action : QAction) : M unit :=
  let nm := text action in
  if String.eqb nm "Set Bounds For X-Daily Data" then
    set_bDialog mkInputDialog;;
    '(val, ok) ← getDouble answer "Reset Time Bounds to X-Hourly"
                           "Frequency (# of samples per day)";
    if negb ok || (val <=? 0)%float then mret tt
    else setBounds_apply nm (Some val)
  else setBounds_apply nm None.

(** *** What the specification compares the handlers with *)

(** How a call reads as Python text: dotted callee, arguments between
    parentheses separated by commas; a variable is written by its id. *)
Definition render_arg (a : Arg) : string :=
  match a with
  | AVar v => var_id v
  | AInt n => pretty n
  | AFloat x => fmt_g x
  end.

Definition render_call (c : ExtCall) : string :=
  PyStr.join "." (callee c) +:+ "(" +:+ PyStr.join "," (map render_arg (call_args c)) +:+ ")".

End Handlers.

(** The bound-setting call that belongs to each of the seven labels: the
    yearly and monthly setters take the variable, the daily setter takes it
    with the number of samples per day (none given for daily data; 2, 4 and
    24 for twice-daily, 6-hourly and hourly data; the dialog's value for
    X-daily data). *)
Definition bounds_call (nm : string) (val : float) (v : Var) : option ExtCall :=
  if String.eqb nm "Set Bounds For Yearly Data" then Some (mkCall setTimeBoundsYearly [AVar v])
  else if String.eqb nm "Set Bounds For Monthly Data" then Some (mkCall setTimeBoundsMonthly [AVar v])
  else if String.eqb nm "Set Bounds For Daily Data" then Some (mkCall setTimeBoundsDaily [AVar v])
  else if String.eqb nm "Set Bounds For Twice-daily Data" then Some (mkCall setTimeBoundsDaily [AVar v; AInt 2])
  else if String.eqb nm "Set Bounds For 6-Hourly Data" then Some (mkCall setTimeBoundsDaily [AVar v; AInt 4])
  else if String.eqb nm "Set Bounds For Hourly Data" then Some (mkCall setTimeBoundsDaily [AVar v; AInt 24])
  else if String.eqb nm "Set Bounds For X-Daily Data" then Some (mkCall setTimeBoundsDaily [AVar v; AFloat val])
  else None.

(** The identifier the specification gives a derived result:
    [<id>_<lowercased label, whitespace removed>], followed by the lowercased
    menu title exactly when the menu is not "Extract". *)
Definition expected_id (menu nm vid : string) : string :=
  vid +:+ "_" +:+ PyStr.remove_whitespace (PyStr.lower nm)
      +:+ (if String.eqb menu "Extract" then "" else PyStr.lower menu).

(** The attribute of [cdutil.times] a label of [seasons] resolves to
    (lines 104-115). *)
Definition season_attr (nm : string) : string :=
  if String.eqb nm "Annual Means" then "YEAR"
  else if String.eqb nm "Seasonal Means" then "SEASONALCYCLE"
  else if String.eqb nm "Monthly Means" then "ANNUALCYCLE"
  else nm.

(** What [seasons] calls on the variables (lines 117-124): the attribute's
    [climatology] or [departures] under the menus of these names, the
    attribute itself under any other menu; [None] when the attribute has no
    such attribute of its own. *)
Definition operator_of (o : TimesAttr) (menu : string) : option Callable :=
  if String.eqb menu "Climatology" then attr_climatology o
  else if String.eqb menu "Departures" then attr_departures o
  else Some (on_call o).

(** The name looked up on the attribute under "Climatology" and
    "Departures". *)
Definition operator_name (menu : string) : string :=
  if String.eqb menu "Climatology" then "climatology" else "departures".

(** How the loop of [seasons] ends at a variable for which the call gives no
    new variable: the exception raised, and whether the call was made
    before. *)
Definition failure_of (r : CallOutcome) : option (Exn * bool) :=
  match r with
  | NotCallable => Some (TypeError "object is not callable", false)
  | CallRaises e => Some (e, true)
  | ReturnsPlain => Some (AttributeError "id", true)
  | ReturnsVariable => None
  end.

(** A season extractor: called on any variable it returns a new variable,
    and so do its [climatology] and [departures]. *)
Definition always_returns (c : Callable) : Prop := ∀ v, c v = ReturnsVariable.

Definition is_extractor (o : TimesAttr) : Prop :=
  always_returns (on_call o) ∧
  (∃ c, attr_climatology o = Some c ∧ always_returns c) ∧
  (∃ d, attr_departures o = Some d ∧ always_returns d).

(** A namespace that has an extractor for every label of the season menus. *)
Definition serves_season_menus (times : string → option TimesAttr) : Prop :=
  ∀ nm, nm ∈ season_labels → ∃ o, times (season_attr nm) = Some o ∧ is_extractor o.

(** The extractors [cdutil.times] is known to define. *)
Definition cdutil_times_has (name : string) : bool :=
  bool_decide (name ∈ ["YEAR"; "SEASONALCYCLE"; "ANNUALCYCLE";
                       "DJF"; "MAM"; "JJA"; "SON";
                       "JAN"; "FEB"; "MAR"; "APR"; "MAY"; "JUN";
                       "JUL"; "AUG"; "SEP"; "OCT"; "NOV"; "DEC"]).

Definition extractor : TimesAttr :=
  mkAttr (λ _, ReturnsVariable) (Some (λ _, ReturnsVariable)) (Some (λ _, ReturnsVariable)).

(** A sample of the module for the examples: the extractors, the function
    [setTimeBoundsDaily] (it changes its argument and returns [None]) and
    the string [__name__]; no other name. *)
Definition cdutil_times (name : string) : option TimesAttr :=
  if cdutil_times_has name then Some extractor
  else if String.eqb name "setTimeBoundsDaily" then Some (mkAttr (λ _, ReturnsPlain) None None)
  else if String.eqb name "__name__" then Some (mkAttr (λ _, NotCallable) None None)
  else None.

(** The same module on data one variable of which the extractors cannot
    handle: a call on the variable named [bad] raises. *)
Definition fails_on (bad : string) : Callable :=
  λ v, if String.eqb (var_id v) bad then CallRaises (ExternalError "no time axis")
       else ReturnsVariable.

Definition cdutil_times_failing_on (bad : string) (name : string) : option TimesAttr :=
  if cdutil_times_has name
  then Some (mkAttr (fails_on bad) (Some (fails_on bad)) (Some (fails_on bad)))
  else None.

(** The changes the handlers make to the world outside the widget: calls
    made, transcript lines and pool variables added, each in order. *)
Definition emit (cs : list ExtCall) (es : list string) (vs : list Var) (w : World) : World :=
  mkWorld (self w) (recorder w ++ es) (definedVars w ++ vs)
          (selectedVars w) (extCalls w ++ cs) (dialogs w).

(** The world once the frequency dialog has been shown: the widget holds
    the dialog and the list of dialogs has one more entry. *)
Definition after_dialog (w : World) : World :=
  mkWorld (mkWidget (menus (self w)) (statsFuncs (self w)) (pop (self w)) (Some mkInputDialog))
          (recorder w) (definedVars w) (selectedVars w) (extCalls w)
          (dialogs w ++ [("Reset Time Bounds to X-Hourly", "Frequency (# of samples per day)")]).

(** A statement [m] keeps the relation [R] between the world before and the
    world after, whether it returns or raises. *)
Definition preserves (R : World → World → Prop) {A : Type} (m : M A) : Prop :=
  ∀ w, R w (m w).2.

(** The transcript after is the transcript before with lines added. *)
Definition transcript_grows (w w' : World) : Prop := recorder w `prefix_of` recorder w'.

(** The widget's own attributes are the same. *)
Definition same_widget (w w' : World) : Prop := self w' = self w.

(** *** Sample inputs *)

(** Two variables and a session in which [sel] is selected, for the
    examples below. *)
Definition tas : Var := mkVar "tas" (Source 0).
Definition pr : Var := mkVar "pr" (Source 1).

Definition session (sel : list Var) : World := mkWorld init [] sel sel [] [].

(** A stand-in for ["%g" % val] in the examples. *)
Definition show_g (x : float) : string := "2.5".

(** *** Further notions used to describe the handlers *)

(** [f] reads the same in the world after as in the world before. *)
Definition unchanged {B : Type} (f : World → B) (w w' : World) : Prop := f w' = f w.

(** The pool after has the pool before as a prefix. *)
Definition pool_grows (w w' : World) : Prop := definedVars w `prefix_of` definedVars w'.

(** The first line [seasons] notes for each variable (lines 102, 117-125):
    the two operator branches assign [rec] instead of extending it. *)
Definition seasons_header (menu nm : string) : string :=
  (if String.eqb menu "Climatology" then "climatological "
   else if String.eqb menu "Departures" then "departures from "
   else "## Computing ") +:+ PyStr.lower nm.

(** The action is one a menu of the widget offers: a menu with the action's
    parent title lists the action's text. *)
Definition offers (s : QMenuWidget) (a : QAction) : Prop :=
  ∃ m, m ∈ menus s ∧ title m = parentTitle a ∧ text a ∈ actions m.

(** The widget has the menus and the statistics table [__init__] built,
    whatever [pop] and [bDialog] hold by now. *)
Definition as_built (s : QMenuWidget) : Prop :=
  menus s = menus init ∧ statsFuncs s = statsFuncs_init.

(** The callable [seasons] applies to each variable (lines 104-125): the
    attribute of [cdutil.times] the label resolves to, or its [climatology]
    or [departures] method when the menu is "Climatology" or "Departures". *)
Definition seasons_callee (menu nm : string) : Path :=
  (["cdutil"; "times"; season_attr nm] ++
   (if String.eqb menu "Climatology" then ["climatology"]
    else if String.eqb menu "Departures" then ["departures"]
    else []))%list.

End MainMenuWidget.

(** ** The installer: [install_nightly.py] *)

Module InstallNightly.

(** What [argparse] stores for an option: the string given on the command
    line, or [None] when the option was left out. *)
Definition OptionValue : Type := option string.

(** The steps the script can run, with the arguments it passes. *)
Inductive Step : Type :=
| Run_install_miniconda (workdir : OptionValue)
| Run_install (conda_path : string) (workdir py_ver : OptionValue)
| Run_install_packages_for_tests (conda_path : string) (workdir py_ver : OptionValue).

(** A run either goes on with a value or has called [sys.exit(code)]. *)
Inductive Outcome (A : Type) : Type :=
| Done (a : A)
| Exit (code : Z).
Arguments Done {A} a.
Arguments Exit {A} code.

(** The script threads the list of steps run so far. *)
Definition Proc (A : Type) : Type := list Step → Outcome A * list Step.

#[global] Instance Proc_ret : MRet Proc := λ A a t, (Done a, t).

#[global] Instance Proc_bind : MBind Proc := λ A B f m t,
  match m t with
  | (Done a, t') => f a t'
  | (Exit code, t') => (Exit code, t')
  end.

Definition sys_exit {A : Type} (code : Z) : Proc A := λ t, (Exit code, t).

(** Running a step notes it and gives back what the step returns. *)
Definition run_step {A : Type} (s : Step) (result : A) : Proc A := λ t, (Done result, (t ++ [s])%list).

(** What [parser.parse_args()] does with the command line (lines 14-23),
    which is an input of the run: it returns the values of the two options,
    or prints a message and calls [sys.exit] itself (status 0 after [-h],
    2 after a usage error). *)
Inductive ParseOutcome : Type :=
| Parsed (workdir py_ver : OptionValue)
| ParserExit (status : Z).

Definition parse_args (cmdline : ParseOutcome) : Proc (OptionValue * OptionValue) :=
  match cmdline with
  | Parsed workdir py_ver => mret (workdir, py_ver)
  | ParserExit status => sys_exit status
  end.

Section Script.

(** [Const.py] is not among the sources: the two status codes. *)
Variables SUCCESS FAILURE : Z.

(** [CondaSetup.CondaSetup(workdir).install_miniconda(workdir)], returning a
    status and the conda path; both arguments are the working directory. *)
Variable install_miniconda : OptionValue → OptionValue → Z * string.

(** [UVCDATSetup.NightlySetup(conda_path, workdir).install(py_ver)] and
    [.install_packages_for_tests(py_ver)], each returning a status. *)
Variable install : string → OptionValue → OptionValue → Z.
Variable install_packages_for_tests : string → OptionValue → OptionValue → Z.

(** Lines 27-40. *)
Definition main (workdir py_ver : OptionValue) : Proc unit :=
  '(status, conda_path) ← run_step (Run_install_miniconda workdir)
                                    (install_miniconda workdir workdir);
  (if negb (status =? SUCCESS)%Z then sys_exit FAILURE else mret tt);;
  status ← run_step (Run_install conda_path workdir py_ver)
                    (install conda_path workdir py_ver);
  (if negb (status =? SUCCESS)%Z then sys_exit FAILURE else mret tt);;
  status ← run_step (Run_install_packages_for_tests conda_path workdir py_ver)
                    (install_packages_for_tests conda_path workdir py_ver);
  sys_exit status.

(** Lines 23-40: the script from the parsing of the command line on. *)
Definition script (cmdline : ParseOutcome) : Proc unit :=
  '(workdir, py_ver) ← parse_args cmdline;
  main workdir py_ver.

(** The whole process for a command line: the steps run, in order, and how
    it ends. *)
Definition process (cmdline : ParseOutcome) : Outcome unit * list Step :=
  script cmdline [].

(** The process once [parse_args] has returned [workdir] and [py_ver]
    (lines 27-40). *)
Definition run (workdir py_ver : OptionValue) : Outcome unit * list Step :=
  main workdir py_ver [].

End Script.

(** The value the process gave to [sys.exit], if it has exited. *)
Definition exit_code {A : Type} (r : Outcome A * list Step) : option Z :=
  match r.1 with
  | Exit code => Some code
  | Done _ => None
  end.

(** The exit status the parent of the process sees: the low 8 bits of the
    value given to [sys.exit] (256 gives 0, -9 gives 247). *)
Definition exit_status {A : Type} (r : Outcome A * list Step) : option Z :=
  match r.1 with
  | Exit code => Some (code mod 256)%Z
  | Done _ => None
  end.

Definition steps_run {A : Type} (r : Outcome A * list Step) : list Step := r.2.

(** A sample [install_miniconda]: it returns the given status and a path
    under the working directory. *)
Definition miniconda (status : Z) : OptionValue → OptionValue → Z * string :=
  λ workdir _, (status, default "" workdir +:+ "/miniconda").

(** The three steps in the order the script runs them. *)
Definition script_steps (workdir : OptionValue) (conda_path : string) (py_ver : OptionValue) :
    list Step :=
  [ Run_install_miniconda workdir;
    Run_install conda_path workdir py_ver;
    Run_install_packages_for_tests conda_path workdir py_ver ].

End InstallNightly.

(** * Properties *)

Open Scope list_scope.

(** ** Strings *)

Module PyStrFacts.
Import PyStr.

Lemma append_cons (c : ascii) (s t : string) : String c s +:+ t = String c (s +:+ t).
Proof. reflexivity. Qed.

Lemma append_empty_l (s : string) : "" +:+ s = s.
Proof. reflexivity. Qed.

Lemma append_empty_r (s : string) : s +:+ "" = s.
Proof. induction s as [|c s IH]; [done | by rewrite append_cons, IH]. Qed.

Lemma append_assoc (a b c : string) : (a +:+ b) +:+ c = a +:+ (b +:+ c).
Proof. induction a as [|x a IH]; [done | by rewrite !append_cons, IH]. Qed.

Lemma join_empty_cons (w : string) (ws : list string) :
  join "" (w :: ws) = w +:+ join "" ws.
Proof. destruct ws; cbn [join]; [by rewrite append_empty_r | by rewrite append_empty_l]. Qed.

(** Joining the words of a string gives the string without its separators. *)
Lemma join_split_from (s cur : string) :
  join "" (split_from cur s) = cur +:+ remove_whitespace s.
Proof.
  revert cur. induction s as [|c s IH]; intros cur.
  - destruct cur; cbn [split_from is_empty join remove_whitespace];
      [done | by rewrite append_empty_r].
  - cbn [split_from remove_whitespace]. destruct (isspace c).
    + destruct cur as [|x cur]; cbn [is_empty].
      * by rewrite IH.
      * by rewrite join_empty_cons, IH, append_empty_l.
    + by rewrite IH, append_assoc, append_cons, append_empty_l.
Qed.

Lemma join_split (s : string) : join "" (split s) = remove_whitespace s.
Proof. unfold split. by rewrite join_split_from. Qed.

End PyStrFacts.

(** ** The menu bar *)

Module MenuSpec.
Import MainMenuWidget.

(** *** Running the monad *)

Lemma bind_run {A B : Type} (m : M A) (f : A → M B) (w : World) :
  (m ≫= f) w = match m w with
               | (Ok a, w') => f a w'
               | (Raise e, w') => (Raise e, w')
               end.
Proof. reflexivity. Qed.

Lemma emit_nothing (w : World) : emit [] [] [] w = w.
Proof. destruct w. unfold emit. cbn. by rewrite !app_nil_r. Qed.

Lemma emit_emit cs1 es1 vs1 cs2 es2 vs2 (w : World) :
  emit cs2 es2 vs2 (emit cs1 es1 vs1 w) = emit (cs1 ++ cs2) (es1 ++ es2) (vs1 ++ vs2) w.
Proof. unfold emit. cbn. by rewrite !app_assoc. Qed.

Lemma call_emit f args (w : World) : call f args w = (Ok tt, emit [mkCall f args] [] [] w).
Proof. unfold call, emit. by rewrite !app_nil_r. Qed.

Lemma record_emit line (w : World) : record line w = (Ok tt, emit [] [line] [] w).
Proof. unfold record, emit. by rewrite !app_nil_r. Qed.

Lemma addVariable_emit v (w : World) : addVariable v w = (Ok tt, emit [] [] [v] w).
Proof. unfold addVariable, emit. by rewrite !app_nil_r. Qed.

(** A loop whose body only emits, emits the bodies' output in order. *)
Lemma for_each_emit {A : Type} (body : A → M unit)
    (cs : A → list ExtCall) (es : A → list string) (vs : A → list Var) (l : list A) :
  (∀ x w, body x w = (Ok tt, emit (cs x) (es x) (vs x) w)) →
  ∀ w, for_each l body w = (Ok tt, emit (flat_map cs l) (flat_map es l) (flat_map vs l) w).
Proof.
  intros Hbody. induction l as [|x l IH]; intros w.
  - cbn. by rewrite emit_nothing.
  - cbn [for_each flat_map]. rewrite bind_run, Hbody, IH, emit_emit. done.
Qed.

(** The three statements of a branch of [setBounds]. *)
Lemma branch_emit f args header line (w : World) :
  (call f args;; record header;; record line) w
  = (Ok tt, emit [mkCall f args] [header; line] [] w).
Proof.
  rewrite bind_run, call_emit, bind_run, record_emit, record_emit, !emit_emit. done.
Qed.

Ltac eval_eqb :=
  repeat match goal with
         | |- context [String.eqb ?a ?b] =>
             let r := eval vm_compute in (String.eqb a b) in
             change (String.eqb a b) with r; cbv iota
         end.

(** Each of the seven labels selects its call and notes a header and a line. *)
Lemma setBounds_body_known (fmt_g : float → string) (nm : string) (val : float) :
  nm ∈ bounds_labels →
  ∃ (c : Var → ExtCall) (line : Var → string),
    (∀ v, bounds_call nm val v = Some (c v)) ∧
    ∀ vo, (nm = "Set Bounds For X-Daily Data" → vo = Some val) →
      ∀ v w, setBounds_body fmt_g nm vo v w
             = (Ok tt, emit [c v] ["## " +:+ nm; line v] [] w).
Proof.
  unfold bounds_labels. rewrite !elem_of_cons, elem_of_nil.
  intros [->|[->|[->|[->|[->|[->|[->|[]]]]]]]].
  all: unfold setBounds_body, bounds_call; eval_eqb.
  1-6: eexists _, (λ v, _); split; [done|]; intros vo _ v w; by rewrite branch_emit.
  eexists _, (λ v, _); split; [done|]. intros vo Hvo v w.
  rewrite (Hvo eq_refl). by rewrite branch_emit.
Qed.

Lemma for_each_skip {A : Type} (body : A → M unit) (l : list A) :
  (∀ x w, body x w = (Ok tt, w)) → ∀ w, for_each l body w = (Ok tt, w).
Proof.
  intros Hbody. induction l as [|x l IH]; intros w; [done|].
  cbn [for_each]. by rewrite bind_run, Hbody, IH.
Qed.

(** *** Relations every statement of a handler keeps *)

Section Preserved.

Context (R : World → World → Prop).
Hypothesis R_refl : ∀ w, R w w.
Hypothesis R_trans : ∀ w1 w2 w3, R w1 w2 → R w2 w3 → R w1 w3.

Lemma preserves_ret {A : Type} (a : A) : preserves R (mret a).
Proof. intros w. apply R_refl. Qed.

Lemma preserves_raise {A : Type} (e : Exn) : preserves R (@raise A e).
Proof. intros w. apply R_refl. Qed.

Lemma preserves_bind {A B : Type} (m : M A) (f : A → M B) :
  preserves R m → (∀ a, preserves R (f a)) → preserves R (m ≫= f).
Proof.
  intros Hm Hf w. rewrite bind_run. specialize (Hm w).
  destruct (m w) as [[a|e] w']; cbn in *; [|done].
  eapply R_trans; [exact Hm | apply Hf].
Qed.

Lemma preserves_for_each {A : Type} (l : list A) (body : A → M unit) :
  (∀ x, preserves R (body x)) → preserves R (for_each l body).
Proof.
  intros Hbody. induction l as [|x l IH]; cbn [for_each].
  - apply preserves_ret.
  - apply preserves_bind; [apply Hbody | intros _; exact IH].
Qed.

Lemma preserves_getSelected : preserves R getSelectedDefinedVariables.
Proof. intros w. apply R_refl. Qed.

Lemma preserves_get_self : preserves R get_self.
Proof. intros w. apply R_refl. Qed.

End Preserved.

Lemma transcript_grows_trans w1 w2 w3 :
  transcript_grows w1 w2 → transcript_grows w2 w3 → transcript_grows w1 w3.
Proof. unfold transcript_grows. intros H1 H2. by etrans. Qed.

Lemma same_widget_trans w1 w2 w3 :
  same_widget w1 w2 → same_widget w2 w3 → same_widget w1 w3.
Proof. unfold same_widget. congruence. Qed.

Lemma record_grows line : preserves transcript_grows (record line).
Proof. intros w. unfold transcript_grows. cbn. by apply prefix_app_r. Qed.

(** Statements other than [record] leave the transcript as it is, and
    statements other than the two assignments leave the widget as it is. *)
Ltac untouched := intros w; unfold transcript_grows, same_widget; cbn; done.

Lemma call_grows f args : preserves transcript_grows (call f args).
Proof. untouched. Qed.
Lemma addVariable_grows v : preserves transcript_grows (addVariable v).
Proof. untouched. Qed.
Lemma getDouble_grows ans ttl lbl : preserves transcript_grows (getDouble ans ttl lbl).
Proof. untouched. Qed.
Lemma set_self_grows s : preserves transcript_grows (set_self s).
Proof. untouched. Qed.

Lemma record_same_widget line : preserves same_widget (record line).
Proof. untouched. Qed.
Lemma call_same_widget f args : preserves same_widget (call f args).
Proof. untouched. Qed.
Lemma addVariable_same_widget v : preserves same_widget (addVariable v).
Proof. untouched. Qed.

Create HintDb handler_steps.
#[local] Hint Resolve record_grows call_grows addVariable_grows getDouble_grows
  set_self_grows record_same_widget call_same_widget addVariable_same_widget
  : handler_steps.

(** Walks through the statements of a handler for a relation [R] that is
    reflexive ([Hrefl]) and transitive ([Htrans]). *)
Ltac walk R Hrefl Htrans :=
  repeat first
    [ apply (preserves_ret R Hrefl)
    | apply (preserves_raise R Hrefl)
    | apply (preserves_getSelected R Hrefl)
    | apply (preserves_get_self R Hrefl)
    | solve [auto with handler_steps]
    | apply (preserves_for_each R Hrefl Htrans)
    | apply (preserves_bind R Htrans)
    | match goal with
      | |- ∀ _, _ => intro
      | |- preserves _ (if ?b then _ else _) => destruct b
      | |- preserves _ (match ?x with _ => _ end) => destruct x
      end ].

Lemma transcript_grows_refl w : transcript_grows w w.
Proof. by unfold transcript_grows. Qed.

Lemma same_widget_refl w : same_widget w w.
Proof. by unfold same_widget. Qed.

Ltac walk_transcript := walk transcript_grows transcript_grows_refl transcript_grows_trans.
Ltac walk_widget := walk same_widget same_widget_refl same_widget_trans.

Lemma seasons_grows times a : preserves transcript_grows (seasons times a).
Proof. unfold seasons, seasons_body, times_attr, get_attr, apply_func, set_id. walk_transcript. Qed.

Lemma setBounds_grows fmt_g ans a : preserves transcript_grows (setBounds fmt_g ans a).
Proof.
  unfold setBounds, setBounds_apply, setBounds_body, set_bDialog. walk_transcript.
Qed.

Lemma stats_grows a : preserves transcript_grows (stats a).
Proof. unfold stats, pop_show, set_pop. walk_transcript. Qed.

Lemma seasons_same_widget times a : preserves same_widget (seasons times a).
Proof. unfold seasons, seasons_body, times_attr, get_attr, apply_func, set_id. walk_widget. Qed.

Lemma setBounds_apply_same_widget fmt_g nm val :
  preserves same_widget (setBounds_apply fmt_g nm val).
Proof. unfold setBounds_apply, setBounds_body. walk_widget. Qed.


(** *** [setBounds] *)

Lemma setBounds_other fmt_g ans a w :
  String.eqb (text a) "Set Bounds For X-Daily Data" = false →
  setBounds fmt_g ans a w = setBounds_apply fmt_g (text a) None w.
Proof. intros H. unfold setBounds. by rewrite H. Qed.

Lemma setBounds_xdaily fmt_g val ok a w :
  String.eqb (text a) "Set Bounds For X-Daily Data" = true →
  setBounds fmt_g (val, ok) a w
  = if negb ok || (val <=? 0)%float then (Ok tt, after_dialog w)
    else setBounds_apply fmt_g (text a) (Some val) (after_dialog w).
Proof.
  intros H. unfold setBounds. rewrite H.
  unfold set_bDialog, set_self, get_self, getDouble, mbind, M_bind. cbn.
  by destruct (negb ok || (val <=? 0)%float).
Qed.

Lemma flat_map_singleton {A B : Type} (f : A → B) (l : list A) :
  flat_map (λ x, [f x]) l = map f l.
Proof. induction l as [|x l IH]; cbn; [done | by rewrite IH]. Qed.

Lemma flat_map_empty {A B : Type} (l : list A) : flat_map (λ _ : A, @nil B) l = [].
Proof. by induction l. Qed.

Lemma length_flat_map_pair {A B : Type} (f g : A → B) (l : list A) :
  length (flat_map (λ x, [f x; g x]) l) = 2 * length l.
Proof. induction l as [|x l IH]; cbn; [done | rewrite IH; lia]. Qed.

(** What the loop does for one of the seven labels. *)
Lemma setBounds_apply_known fmt_g nm val vo w :
  nm ∈ bounds_labels →
  (nm = "Set Bounds For X-Daily Data" → vo = Some val) →
  ∃ (c : Var → ExtCall) (line : Var → string),
    (∀ v, bounds_call nm val v = Some (c v)) ∧
    setBounds_apply fmt_g nm vo w
    = (Ok tt, emit (map c (selectedVars w))
                   (flat_map (λ v, ["## " +:+ nm; line v]) (selectedVars w)) [] w).
Proof.
  intros Hnm Hvo.
  destruct (setBounds_body_known fmt_g nm val Hnm) as (c & line & Hc & Hbody).
  exists c, line. split; [done|].
  unfold setBounds_apply. rewrite bind_run. cbn.
  rewrite (for_each_emit _ (λ v, [c v]) (λ v, ["## " +:+ nm; line v]) (λ _, []))
    by (intros; by apply Hbody).
  by rewrite flat_map_singleton, flat_map_empty.
Qed.

Lemma eqb_xdaily_label nm :
  nm ∈ bounds_labels →
  String.eqb nm "Set Bounds For X-Daily Data" = false ∨ nm = "Set Bounds For X-Daily Data".
Proof.
  unfold bounds_labels. rewrite !elem_of_cons, elem_of_nil.
  intros [->|[->|[->|[->|[->|[->|[->|[]]]]]]]]; auto.
Qed.

(** C1 (as amended): for each of the seven time-bounds labels (for X-Daily,
    once the dialog was accepted with a value that is not [<= 0]) and every
    set of selected variables, [setBounds] makes the label's bound-setting
    call on each selected variable, in order, and appends two transcript
    entries per selected variable: the header comment of the label followed
    by one line for the call. *)
Theorem setBounds_calls_and_two_entries_per_variable
    (fmt_g : float → string) (val : float) (ok : bool) (a : QAction) (w : World) :
  text a ∈ bounds_labels →
  (text a = "Set Bounds For X-Daily Data" → ok = true ∧ (val <=? 0)%float = false) →
  let r := setBounds fmt_g (val, ok) a w in
  r.1 = Ok tt ∧
  (∃ calls, extCalls r.2 = (extCalls w ++ calls)%list ∧
            Forall2 (λ v c, bounds_call (text a) val v = Some c) (selectedVars w) calls) ∧
  (∃ line : Var → string,
     recorder r.2 = (recorder w ++ flat_map (λ v, ["## " +:+ text a; line v]) (selectedVars w))%list) ∧
  length (recorder r.2) = length (recorder w) + 2 * length (selectedVars w).
Proof.
  intros Hnm Hx r. subst r.
  assert (∃ w1 vo, setBounds fmt_g (val, ok) a w = setBounds_apply fmt_g (text a) vo w1
                   ∧ (text a = "Set Bounds For X-Daily Data" → vo = Some val)
                   ∧ recorder w1 = recorder w ∧ extCalls w1 = extCalls w
                   ∧ selectedVars w1 = selectedVars w) as (w1 & vo & -> & Hvo & Hr & Hc & Hs).
  { destruct (eqb_xdaily_label _ Hnm) as [Hne|Heq].
    - exists w, None. rewrite setBounds_other by done. repeat split; try done.
      intros E. rewrite E in Hne. done.
    - exists (after_dialog w), (Some val). destruct (Hx Heq) as [-> Hpos].
      rewrite setBounds_xdaily by (by rewrite Heq). rewrite Hpos. done. }
  destruct (setBounds_apply_known fmt_g (text a) val vo w1 Hnm Hvo) as (c & line & Hcall & ->).
  cbn. rewrite Hr, Hc, Hs. repeat split.
  - exists (map c (selectedVars w)). split; [done|].
    clear -Hcall. induction (selectedVars w) as [|v l IH]; constructor; auto.
  - by exists line.
  - rewrite length_app, length_flat_map_pair. lia.
Qed.

Lemma setBounds_calls_and_two_entries_example :
  let a := mkAction "Set Bounds For X-Daily Data" "Bounds Set" in
  let w := session [tas; pr] in
  let r := setBounds show_g (2.5%float, true) a w in
  r.1 = Ok tt ∧
  (∃ calls, extCalls r.2 = (extCalls w ++ calls)%list ∧
            Forall2 (λ v c, bounds_call (text a) 2.5%float v = Some c) (selectedVars w) calls) ∧
  (∃ line : Var → string,
     recorder r.2 = (recorder w ++ flat_map (λ v, ["## " +:+ text a; line v]) (selectedVars w))%list) ∧
  length (recorder r.2) = length (recorder w) + 2 * length (selectedVars w).
Proof.
  apply (setBounds_calls_and_two_entries_per_variable show_g 2.5%float true
           (mkAction "Set Bounds For X-Daily Data" "Bounds Set") (session [tas; pr])).
  - unfold bounds_labels. cbn [text]. rewrite !elem_of_cons. auto 10.
  - intros _. split; reflexivity.
Defined.

(** C1, counterexample: with two variables selected, "Set Bounds For Yearly
    Data" appends four transcript entries, not one per variable plus one;
    and "Set Bounds For X-Daily Data" with the dialog cancelled makes no call
    and appends no entry at all, although two variables are selected. *)
Lemma setBounds_entries_not_one_per_variable_plus_one :
  let w := session [tas; pr] in
  let yearly := setBounds show_g (0%float, false)
                  (mkAction "Set Bounds For Yearly Data" "Bounds Set") w in
  let xdaily := setBounds show_g (2.5%float, false)
                  (mkAction "Set Bounds For X-Daily Data" "Bounds Set") w in
  recorder yearly.2
  = [ "## Set Bounds For Yearly Data"; "cdutil.times.setTimeBoundsYearly(tas)";
      "## Set Bounds For Yearly Data"; "cdutil.times.setTimeBoundsYearly(pr)" ] ∧
  length (recorder yearly.2) - length (recorder w) ≠ length (selectedVars w) + 1 ∧
  extCalls xdaily.2 = [] ∧
  recorder xdaily.2 = [].
Proof. split; [reflexivity | split; [vm_compute; lia | split; reflexivity]]. Qed.

(** C2: for "Set Bounds For X-Daily Data", when the dialog is cancelled or
    returns a value [<= 0], [setBounds] returns normally having made no
    external call and appended no transcript entry (and added no variable),
    whatever variables are selected. *)
Theorem setBounds_xdaily_rejected
    (fmt_g : float → string) (val : float) (ok : bool) (a : QAction) (w : World) :
  text a = "Set Bounds For X-Daily Data" →
  ok = false ∨ (val <=? 0)%float = true →
  let r := setBounds fmt_g (val, ok) a w in
  r.1 = Ok tt ∧ extCalls r.2 = extCalls w ∧ recorder r.2 = recorder w ∧
  definedVars r.2 = definedVars w.
Proof.
  intros Hnm Hbad r. subst r.
  rewrite setBounds_xdaily by (by rewrite Hnm).
  assert (negb ok || (val <=? 0)%float = true) as ->; [|done].
  destruct Hbad as [-> | ->]; [done | by rewrite orb_true_r].
Qed.

Lemma setBounds_xdaily_rejected_example :
  let a := mkAction "Set Bounds For X-Daily Data" "Bounds Set" in
  let w := session [tas; pr] in
  let r := setBounds show_g ((-1)%float, true) a w in
  r.1 = Ok tt ∧ extCalls r.2 = extCalls w ∧ recorder r.2 = recorder w ∧
  definedVars r.2 = definedVars w.
Proof.
  apply (setBounds_xdaily_rejected show_g (-1)%float true
           (mkAction "Set Bounds For X-Daily Data" "Bounds Set") (session [tas; pr])).
  - reflexivity.
  - right. reflexivity.
Defined.

(** A float above zero is not [<= 0]. *)
Lemma positive_not_le_zero (x : float) : (0 <? x)%float = true → (x <=? 0)%float = false.
Proof.
  rewrite ltb_spec, leb_spec.
  change (Prim2SF 0%float) with (S754_zero false).
  destruct (Prim2SF x) as [s|s| |s m e]; try destruct s; cbn; congruence.
Qed.

(** C10: for "Set Bounds For X-Daily Data" accepted with a positive value,
    the frequency dialog is shown exactly once in the invocation and that
    one value is the second argument of [setTimeBoundsDaily] for every
    selected variable. *)
Theorem setBounds_xdaily_one_prompt_same_frequency
    (fmt_g : float → string) (val : float) (a : QAction) (w : World) :
  text a = "Set Bounds For X-Daily Data" →
  (0 <? val)%float = true →
  let r := setBounds fmt_g (val, true) a w in
  r.1 = Ok tt ∧
  dialogs r.2 = (dialogs w ++ [("Reset Time Bounds to X-Hourly",
                                "Frequency (# of samples per day)")])%list ∧
  extCalls r.2 = (extCalls w ++
                  map (λ v, mkCall setTimeBoundsDaily [AVar v; AFloat val]) (selectedVars w))%list.
Proof.
  intros Hnm Hpos r. subst r.
  rewrite setBounds_xdaily by (by rewrite Hnm).
  rewrite (positive_not_le_zero _ Hpos). cbn [negb orb].
  destruct (setBounds_apply_known fmt_g (text a) val (Some val) (after_dialog w))
    as (c & line & Hc & ->); [rewrite Hnm; unfold bounds_labels; set_solver | done |].
  cbn. repeat split. f_equal. apply map_ext. intros v.
  specialize (Hc v). rewrite Hnm in Hc. cbv in Hc. by injection Hc.
Qed.

Lemma setBounds_xdaily_one_prompt_example :
  let a := mkAction "Set Bounds For X-Daily Data" "Bounds Set" in
  let w := session [tas; pr] in
  let r := setBounds show_g (2.5%float, true) a w in
  r.1 = Ok tt ∧
  dialogs r.2 = (dialogs w ++ [("Reset Time Bounds to X-Hourly",
                                "Frequency (# of samples per day)")])%list ∧
  extCalls r.2 = (extCalls w ++
                  map (λ v, mkCall setTimeBoundsDaily [AVar v; AFloat 2.5%float]) (selectedVars w))%list.
Proof.
  apply (setBounds_xdaily_one_prompt_same_frequency show_g 2.5%float
           (mkAction "Set Bounds For X-Daily Data" "Bounds Set") (session [tas; pr]));
    reflexivity.
Defined.

(** *** [seasons]: how a run goes *)

(** The identifier built at lines 129-132 is the one the specification
    describes. *)
Lemma built_id_expected (menu nm vid : string) :
  (let ext := PyStr.join "" (PyStr.split (PyStr.lower nm)) in
   let newid := vid +:+ "_" +:+ ext in
   if negb (String.eqb menu "Extract") then newid +:+ PyStr.lower menu else newid)
  = expected_id menu nm vid.
Proof.
  unfold expected_id. cbv zeta. rewrite PyStrFacts.join_split.
  destruct (String.eqb menu "Extract"); cbn [negb].
  - by rewrite PyStrFacts.append_empty_r.
  - by rewrite !PyStrFacts.append_assoc.
Qed.

(** A loop whose body only emits for the elements that satisfy [P] runs
    through a list of such elements, and stops at the first element at
    which the body raises, keeping what was emitted before. *)
Lemma for_each_emit_on {A : Type} (P : A → Prop) (body : A → M unit)
    (cs : A → list ExtCall) (es : A → list string) (vs : A → list Var) (l : list A) :
  (∀ x w, P x → body x w = (Ok tt, emit (cs x) (es x) (vs x) w)) →
  Forall P l →
  ∀ w, for_each l body w = (Ok tt, emit (flat_map cs l) (flat_map es l) (flat_map vs l) w).
Proof.
  intros Hbody Hl. induction Hl as [|x l Hx Hl IH]; intros w.
  - cbn. by rewrite emit_nothing.
  - cbn [for_each flat_map]. rewrite bind_run, Hbody, IH, emit_emit by done. done.
Qed.

Lemma for_each_stops {A : Type} (P : A → Prop) (body : A → M unit)
    (cs : A → list ExtCall) (es : A → list string) (vs : A → list Var)
    (done : list A) (x : A) (rest : list A) (e : Exn) (cx : list ExtCall) :
  (∀ y w, P y → body y w = (Ok tt, emit (cs y) (es y) (vs y) w)) →
  Forall P done →
  (∀ w, body x w = (Raise e, emit cx [] [] w)) →
  ∀ w, for_each (done ++ x :: rest) body w
       = (Raise e, emit (flat_map cs done ++ cx) (flat_map es done) (flat_map vs done) w).
Proof.
  intros Hbody Hdone Hx. induction Hdone as [|y done Hy Hdone IH]; intros w.
  - cbn [app for_each flat_map]. rewrite bind_run, Hx. done.
  - cbn [app for_each flat_map]. rewrite bind_run, Hbody, IH, emit_emit by done.
    by rewrite !app_assoc.
Qed.

(** The body of the loop for a variable the callable returns a new variable
    for, and for a variable at which it does not. *)
Lemma seasons_body_returns menu nm (func : Callable) f funcnm rec v w :
  func v = ReturnsVariable →
  seasons_body menu nm func f funcnm rec v w
  = (Ok tt, emit [mkCall f [AVar v]]
                 [rec; expected_id menu nm (var_id v) +:+ " = " +:+ funcnm +:+ "(" +:+ var_id v +:+ ")"]
                 [mkVar (expected_id menu nm (var_id v)) (Applied f (var_data v))] w).
Proof.
  intros H. unfold seasons_body, apply_func, set_id. rewrite H. cbv zeta.
  rewrite built_id_expected.
  unfold mbind, M_bind, mret, M_ret, call, addVariable, record, emit. cbn.
  by rewrite <- !app_assoc.
Qed.

Lemma seasons_body_fails menu nm (func : Callable) f funcnm rec v e called w :
  failure_of (func v) = Some (e, called) →
  seasons_body menu nm func f funcnm rec v w
  = (Raise e, emit (if called then [mkCall f [AVar v]] else []) [] [] w).
Proof.
  unfold seasons_body, apply_func, set_id.
  destruct (func v) as [|e'| |]; intros [= <- <-].
  - rewrite bind_run. cbn. by rewrite emit_nothing.
  - rewrite !bind_run, call_emit. done.
  - rewrite !bind_run, call_emit. done.
Qed.

Lemma returns_or_fails (r : CallOutcome) :
  r = ReturnsVariable ∨ ∃ e called, failure_of r = Some (e, called).
Proof. destruct r; cbn; eauto. Qed.

Lemma seasons_loop_ok_inv menu nm (func : Callable) f funcnm rec l w :
  (for_each l (seasons_body menu nm func f funcnm rec) w).1 = Ok tt →
  Forall (λ v, func v = ReturnsVariable) l.
Proof.
  revert w. induction l as [|v l IH]; intros w H; [constructor|].
  cbn [for_each] in H. rewrite bind_run in H.
  destruct (returns_or_fails (func v)) as [Hv|(e & called & Hv)].
  - rewrite seasons_body_returns in H by done. constructor; [done | by eapply IH].
  - rewrite (seasons_body_fails _ _ _ _ _ _ _ _ _ _ Hv) in H. discriminate H.
Qed.

(** Lines 104-126: [seasons] raises [AttributeError] when the module has not
    the attribute the label resolves to, or the attribute has not the
    operator of the menu, and otherwise runs its loop. *)
Lemma seasons_cases times a w :
  seasons times a w
  = match times (season_attr (text a)) with
    | None => (Raise (AttributeError (season_attr (text a))), w)
    | Some o =>
        match operator_of o (parentTitle a) with
        | None => (Raise (AttributeError (operator_name (parentTitle a))), w)
        | Some func =>
            for_each (selectedVars w)
              (seasons_body (parentTitle a) (text a) func
                 (seasons_callee (parentTitle a) (text a))
                 (PyStr.join "." (seasons_callee (parentTitle a) (text a)))
                 (seasons_header (parentTitle a) (text a))) w
        end
    end.
Proof.
  unfold seasons, seasons_callee, seasons_header, season_attr, times_attr,
    operator_of, operator_name, get_attr.
  destruct (String.eqb (text a) "Annual Means");
    [|destruct (String.eqb (text a) "Seasonal Means");
      [|destruct (String.eqb (text a) "Monthly Means")]];
    rewrite bind_run;
    (match goal with |- context [times ?n] => destruct (times n) as [o|] end; [|reflexivity]);
    rewrite bind_run; cbn;
    (destruct (String.eqb (parentTitle a) "Climatology");
     [destruct (attr_climatology o); reflexivity|]);
    (destruct (String.eqb (parentTitle a) "Departures");
     [destruct (attr_departures o); reflexivity|]);
    reflexivity.
Qed.

(** A run in which every call returns a new variable. *)
Lemma seasons_found times a w o func :
  times (season_attr (text a)) = Some o →
  operator_of o (parentTitle a) = Some func →
  Forall (λ v, func v = ReturnsVariable) (selectedVars w) →
  let f := seasons_callee (parentTitle a) (text a) in
  let newid v := expected_id (parentTitle a) (text a) (var_id v) in
  seasons times a w
  = (Ok tt,
     emit (map (λ v, mkCall f [AVar v]) (selectedVars w))
          (flat_map (λ v, [seasons_header (parentTitle a) (text a);
                           newid v +:+ " = " +:+ PyStr.join "." f +:+ "(" +:+ var_id v +:+ ")"])
                    (selectedVars w))
          (map (λ v, mkVar (newid v) (Applied f (var_data v))) (selectedVars w)) w).
Proof.
  intros Ho Hf Hsel. cbv zeta. rewrite seasons_cases, Ho, Hf.
  rewrite (for_each_emit_on _ _ _ _ _ _ (λ v w Hv, seasons_body_returns _ _ func _ _ _ v w Hv) Hsel).
  by rewrite !flat_map_singleton.
Qed.

(** A run that returns is a run in which every call returned a variable. *)
Lemma seasons_ok_inv times a w :
  (seasons times a w).1 = Ok tt →
  ∃ o func, times (season_attr (text a)) = Some o ∧
            operator_of o (parentTitle a) = Some func ∧
            Forall (λ v, func v = ReturnsVariable) (selectedVars w).
Proof.
  rewrite seasons_cases.
  destruct (times (season_attr (text a))) as [o|] eqn:Ho; [|intros H; discriminate H].
  destruct (operator_of o (parentTitle a)) as [func|] eqn:Hf; [|intros H; discriminate H].
  intros H. exists o, func. split; [done|]. split; [done|].
  exact (seasons_loop_ok_inv _ _ _ _ _ _ _ _ H).
Qed.

Lemma extractor_operator o menu :
  is_extractor o → ∃ func, operator_of o menu = Some func ∧ always_returns func.
Proof.
  intros (H & (c & Hc & Hc') & (d & Hd & Hd')). unfold operator_of.
  destruct (String.eqb menu "Climatology"); [eauto|].
  destruct (String.eqb menu "Departures"); eauto.
Qed.

(** On a label of the season menus, with a module that serves them. *)
Lemma seasons_served times a w :
  serves_season_menus times →
  text a ∈ season_labels →
  ∃ o func, times (season_attr (text a)) = Some o ∧
            operator_of o (parentTitle a) = Some func ∧
            Forall (λ v, func v = ReturnsVariable) (selectedVars w).
Proof.
  intros Hns Hnm. destruct (Hns _ Hnm) as (o & Ho & Hext).
  destruct (extractor_operator o (parentTitle a) Hext) as (func & Hf & Hret).
  exists o, func. split; [done|]. split; [done|].
  apply Forall_forall. intros v _. apply Hret.
Qed.

(** *** Labels no branch knows *)

Lemma eqb_false_of_ne (s t : string) : s ≠ t → String.eqb s t = false.
Proof. intros H. by apply String.eqb_neq. Qed.

Lemma setBounds_unknown_label fmt_g ans a w :
  text a ∉ bounds_labels → setBounds fmt_g ans a w = (Ok tt, w).
Proof.
  unfold bounds_labels. rewrite !not_elem_of_cons.
  intros (H1 & H2 & H3 & H4 & H5 & H6 & H7 & _).
  unfold setBounds, setBounds_apply. rewrite (eqb_false_of_ne _ _ H7).
  rewrite bind_run. cbn. apply for_each_skip. intros v w'.
  unfold setBounds_body.
  by rewrite (eqb_false_of_ne _ _ H1), (eqb_false_of_ne _ _ H2), (eqb_false_of_ne _ _ H3),
    (eqb_false_of_ne _ _ H4), (eqb_false_of_ne _ _ H5), (eqb_false_of_ne _ _ H6),
    (eqb_false_of_ne _ _ H7).
Qed.

Lemma seasons_unknown_label times a w :
  text a ∉ season_labels → times (text a) = None →
  seasons times a w = (Raise (AttributeError (text a)), w).
Proof.
  unfold season_labels. cbn [app]. rewrite !not_elem_of_cons.
  intros (H1 & H2 & _ & _ & _ & _ & H3 & _) Hns.
  rewrite seasons_cases. unfold season_attr.
  rewrite (eqb_false_of_ne _ _ H1), (eqb_false_of_ne _ _ H2), (eqb_false_of_ne _ _ H3), Hns.
  reflexivity.
Qed.

(** C6 (as amended): for every label that is none of the seven time-bounds
    labels, [setBounds] does nothing at all: it returns normally and the
    world (calls, transcript, pool, widget) is as before.  [seasons] has no
    such fall-through: a label that is none of the season labels is looked
    up in [cdutil.times], and when the module has no such attribute the
    handler raises [AttributeError]; the world is as before, so no call was
    made and no transcript entry appended. *)
Theorem unknown_label_setBounds_noop_seasons_raises
    (times : string → option TimesAttr) (fmt_g : float → string) (ans : float * bool)
    (a : QAction) (w : World) :
  (text a ∉ bounds_labels → setBounds fmt_g ans a w = (Ok tt, w)) ∧
  (text a ∉ season_labels → times (text a) = None →
   seasons times a w = (Raise (AttributeError (text a)), w)).
Proof.
  split.
  - by apply setBounds_unknown_label.
  - by apply seasons_unknown_label.
Qed.

Lemma not_in_labels (s : string) (l : list string) :
  bool_decide (s ∈ l) = false → s ∉ l.
Proof. intros H. by apply (bool_decide_eq_false (s ∈ l)). Qed.

Lemma unknown_label_example :
  let w := session [tas; pr] in
  setBounds show_g (0%float, false) (mkAction "DJF" "Bounds Set") w = (Ok tt, w) ∧
  seasons cdutil_times (mkAction "Weekly Means" "Extract") w
  = (Raise (AttributeError "Weekly Means"), w).
Proof.
  split.
  - apply (unknown_label_setBounds_noop_seasons_raises cdutil_times show_g (0%float, false)
             (mkAction "DJF" "Bounds Set") (session [tas; pr])).
    apply not_in_labels. reflexivity.
  - apply (unknown_label_setBounds_noop_seasons_raises cdutil_times show_g (0%float, false)
             (mkAction "Weekly Means" "Extract") (session [tas; pr])).
    + apply not_in_labels. reflexivity.
    + reflexivity.
Defined.

(** C6, counterexample: "Weekly Means" is no label of any menu, and
    [seasons] raises on it instead of returning. *)
Lemma seasons_weekly_means_raises :
  let a := mkAction "Weekly Means" "Extract" in
  bool_decide (text a ∈ season_labels ++ bounds_labels)%list = false ∧
  (seasons cdutil_times a (session [tas; pr])).1 = Raise (AttributeError "Weekly Means").
Proof. split; reflexivity. Qed.

(** *** What the transcript says about a call *)

(** C7, evaluated where it fails: for "Set Bounds For Daily Data" the call
    made is [cdutil.times.setTimeBoundsDaily(tas)], and the transcript line
    names [cdutil.times.setTimeBoundDaily], which is another name. *)
Theorem setBounds_daily_line_names_other_function (fmt_g : float → string) :
  let a := mkAction "Set Bounds For Daily Data" "Bounds Set" in
  let r := setBounds fmt_g (0%float, false) a (session [tas]) in
  extCalls r.2 = [mkCall setTimeBoundsDaily [AVar tas]] ∧
  recorder r.2 = ["## Set Bounds For Daily Data"; "cdutil.times.setTimeBoundDaily(tas)"] ∧
  render_call fmt_g (mkCall setTimeBoundsDaily [AVar tas]) = "cdutil.times.setTimeBoundsDaily(tas)" ∧
  "cdutil.times.setTimeBoundDaily(tas)" ≠ render_call fmt_g (mkCall setTimeBoundsDaily [AVar tas]).
Proof. repeat split. intros H. discriminate H. Qed.

(** *** The transcript only grows *)

(** C8: whatever the handler and its input, the transcript before the
    invocation is a prefix of the transcript after it. *)
Theorem transcript_is_append_only
    (times : string → option TimesAttr) (fmt_g : float → string) (ans : float * bool)
    (a : QAction) (w : World) :
  recorder w `prefix_of` recorder (seasons times a w).2 ∧
  recorder w `prefix_of` recorder (setBounds fmt_g ans a w).2 ∧
  recorder w `prefix_of` recorder (stats a w).2.
Proof.
  split; [apply seasons_grows | split; [apply setBounds_grows | apply stats_grows]].
Qed.

(** *** The widget's own attributes *)

Lemma setBounds_widget fmt_g ans a w :
  self (setBounds fmt_g ans a w).2
  = if String.eqb (text a) "Set Bounds For X-Daily Data"
    then mkWidget (menus (self w)) (statsFuncs (self w)) (pop (self w)) (Some mkInputDialog)
    else self w.
Proof.
  destruct ans as [val ok].
  destruct (String.eqb (text a) "Set Bounds For X-Daily Data") eqn:E.
  - rewrite setBounds_xdaily by done.
    destruct (negb ok || (val <=? 0)%float); [done|].
    by rewrite (setBounds_apply_same_widget fmt_g (text a) (Some val) (after_dialog w)).
  - rewrite setBounds_other by done. apply setBounds_apply_same_widget.
Qed.

Lemma stats_widget a w :
  self (stats a w).2
  = match statsFuncs (self w) !! text a with
    | Some d => mkWidget (menus (self w)) (statsFuncs (self w))
                         (Some (mkPopUp d true)) (bDialog (self w))
    | None => self w
    end.
Proof.
  unfold stats. rewrite bind_run. cbn.
  by destruct (statsFuncs (self w) !! text a).
Qed.

(** C9 (as amended): [seasons] never changes the widget's own attributes
    and [setBounds] does not for a label other than "Set Bounds For X-Daily
    Data"; for that label [setBounds] sets [bDialog] to a new dialog and
    leaves the other attributes; [stats] sets [pop] to a popup for the
    label's entry of [statsFuncs] and leaves the other attributes, and
    changes nothing when the label has no entry.  Invoking a handler a
    second time with the same input leaves the attributes as the first
    invocation left them (the new dialog or popup being one more object of
    the same content). *)
Theorem handlers_effect_on_widget
    (times : string → option TimesAttr) (fmt_g : float → string) (ans : float * bool)
    (a : QAction) (w : World) :
  self (seasons times a w).2 = self w ∧
  self (setBounds fmt_g ans a w).2
  = (if String.eqb (text a) "Set Bounds For X-Daily Data"
     then mkWidget (menus (self w)) (statsFuncs (self w)) (pop (self w)) (Some mkInputDialog)
     else self w) ∧
  self (stats a w).2
  = match statsFuncs (self w) !! text a with
    | Some d => mkWidget (menus (self w)) (statsFuncs (self w))
                         (Some (mkPopUp d true)) (bDialog (self w))
    | None => self w
    end ∧
  self (seasons times a (seasons times a w).2).2 = self (seasons times a w).2 ∧
  self (setBounds fmt_g ans a (setBounds fmt_g ans a w).2).2 = self (setBounds fmt_g ans a w).2 ∧
  self (stats a (stats a w).2).2 = self (stats a w).2.
Proof.
  split; [apply seasons_same_widget|].
  split; [apply setBounds_widget|].
  split; [apply stats_widget|].
  split; [apply seasons_same_widget|].
  split.
  - rewrite !setBounds_widget.
    by destruct (String.eqb (text a) "Set Bounds For X-Daily Data").
  - rewrite !stats_widget.
    destruct (statsFuncs (self w) !! text a) as [d|] eqn:E; cbn; by rewrite E.
Qed.

(** C9, counterexample: [stats] on "Mean" leaves a popup in [self.pop],
    which was not there before. *)
Lemma stats_mean_sets_pop :
  let a := mkAction "Mean" "Statistics" in
  let w := session [tas] in
  pop (self w) = None ∧
  pop (self (stats a w).2) = Some (mkPopUp (mkStatDef ["cdutil"; "averager"] 1 2 None) true) ∧
  self (stats a w).2 ≠ self w.
Proof.
  split; [reflexivity|]. split; [reflexivity|].
  intros H. apply (f_equal pop) in H. discriminate H.
Qed.

(** C3: for each of the menus "Extract", "Climatology" and "Departures" (in
    fact for any menu title) and each label of the season menus, [seasons]
    adds one derived variable per selected variable, in order, and the
    identifier assigned to it is the variable's id, an underscore, the label
    lowercased with all whitespace removed, and then the lowercased menu
    title exactly when the menu title is not "Extract". *)
Theorem seasons_assigns_expected_id (times : string → option TimesAttr) (a : QAction) (w : World) :
  parentTitle a ∈ season_menus →
  text a ∈ season_labels →
  serves_season_menus times →
  let r := seasons times a w in
  r.1 = Ok tt ∧
  ∃ results,
    definedVars r.2 = (definedVars w ++ results)%list ∧
    Forall2 (λ v d, var_id d = expected_id (parentTitle a) (text a) (var_id v) ∧
                    ∃ f, var_data d = Applied f (var_data v))
            (selectedVars w) results.
Proof.
  intros _ Hnm Hns r. subst r.
  destruct (seasons_served times a w Hns Hnm) as (o & func & Ho & Hf & Hsel).
  rewrite (seasons_found times a w o func Ho Hf Hsel).
  cbn. split; [done|]. eexists. split; [done|].
  clear Hsel. induction (selectedVars w) as [|v l IH]; cbn; constructor; eauto.
Qed.

Lemma extractor_is_extractor : is_extractor extractor.
Proof. split; [done|]. split; by eexists. Qed.

Lemma cdutil_times_serves_season_menus : serves_season_menus cdutil_times.
Proof.
  unfold serves_season_menus, season_labels. cbn [app]. intros nm.
  rewrite !elem_of_cons, elem_of_nil.
  intros H.
  repeat (destruct H as [->|H];
          [exists extractor; split; [reflexivity | exact extractor_is_extractor]|]).
  destruct H.
Qed.

Lemma seasons_assigns_expected_id_example :
  let a := mkAction "Seasonal Means" "Departures" in
  let w := session [tas; pr] in
  let r := seasons cdutil_times a w in
  expected_id "Departures" "Seasonal Means" "tas" = "tas_seasonalmeansdepartures" ∧
  r.1 = Ok tt ∧
  ∃ results,
    definedVars r.2 = (definedVars w ++ results)%list ∧
    Forall2 (λ v d, var_id d = expected_id (parentTitle a) (text a) (var_id v) ∧
                    ∃ f, var_data d = Applied f (var_data v))
            (selectedVars w) results.
Proof.
  split; [reflexivity|].
  apply (seasons_assigns_expected_id cdutil_times
           (mkAction "Seasonal Means" "Departures") (session [tas; pr])).
  - unfold season_menus. cbn [parentTitle]. rewrite !elem_of_cons. auto.
  - unfold season_labels. cbn [text app]. rewrite !elem_of_cons. auto.
  - exact cdutil_times_serves_season_menus.
Defined.

(** *** Transcript lines that do match the call *)

(** X1: whenever [seasons] returns normally, a call was made on every
    selected variable, and the line noted for a variable is the new
    identifier, [" = "], and the call made on that variable as Python
    text. *)
Theorem seasons_line_matches_call
    (times : string → option TimesAttr) (fmt_g : float → string) (a : QAction) (w : World) :
  (seasons times a w).1 = Ok tt →
  ∃ (f : Path) (header : string),
    let r := seasons times a w in
    extCalls r.2 = extCalls w ++ map (λ v, mkCall f [AVar v]) (selectedVars w) ∧
    recorder r.2
    = recorder w ++
      flat_map (λ v, [header;
                      expected_id (parentTitle a) (text a) (var_id v) +:+ " = "
                        +:+ render_call fmt_g (mkCall f [AVar v])])
               (selectedVars w).
Proof.
  intros Hok. destruct (seasons_ok_inv times a w Hok) as (o & func & Ho & Hf & Hsel).
  exists (seasons_callee (parentTitle a) (text a)), (seasons_header (parentTitle a) (text a)).
  cbv zeta. rewrite (seasons_found times a w o func Ho Hf Hsel). done.
Qed.

Lemma seasons_line_matches_call_example :
  ∃ (f : Path) (header : string),
    let a := mkAction "JJA" "Climatology" in
    let w := session [tas] in
    let r := seasons cdutil_times a w in
    extCalls r.2 = extCalls w ++ map (λ v, mkCall f [AVar v]) (selectedVars w) ∧
    recorder r.2
    = recorder w ++
      flat_map (λ v, [header;
                      expected_id (parentTitle a) (text a) (var_id v) +:+ " = "
                        +:+ render_call show_g (mkCall f [AVar v])])
               (selectedVars w).
Proof.
  apply (seasons_line_matches_call cdutil_times show_g
           (mkAction "JJA" "Climatology") (session [tas])).
  reflexivity.
Defined.

(** X2: for the yearly and monthly labels of [setBounds], the line noted
    for a variable is the call made on it as Python text. *)
Theorem setBounds_yearly_monthly_line_matches_call
    (fmt_g : float → string) (ans : float * bool) (a : QAction) (w : World) :
  text a = "Set Bounds For Yearly Data" ∨ text a = "Set Bounds For Monthly Data" →
  ∃ f : Path,
    let r := setBounds fmt_g ans a w in
    extCalls r.2 = extCalls w ++ map (λ v, mkCall f [AVar v]) (selectedVars w) ∧
    recorder r.2
    = recorder w ++
      flat_map (λ v, ["## " +:+ text a; render_call fmt_g (mkCall f [AVar v])])
               (selectedVars w).
Proof.
  intros [E|E]; [exists setTimeBoundsYearly | exists setTimeBoundsMonthly].
  all: cbv zeta; rewrite setBounds_other by (by rewrite E).
  all: unfold setBounds_apply; rewrite bind_run; cbn; rewrite E.
  all: erewrite for_each_emit;
    [| intros v w'; unfold setBounds_body; eval_eqb; apply branch_emit].
  all: cbn; by rewrite flat_map_singleton.
Qed.

Lemma setBounds_yearly_line_matches_call_example :
  ∃ f : Path,
    let a := mkAction "Set Bounds For Yearly Data" "Bounds Set" in
    let w := session [tas; pr] in
    let r := setBounds show_g (0%float, false) a w in
    extCalls r.2 = extCalls w ++ map (λ v, mkCall f [AVar v]) (selectedVars w) ∧
    recorder r.2
    = recorder w ++
      flat_map (λ v, ["## " +:+ text a; render_call show_g (mkCall f [AVar v])])
               (selectedVars w).
Proof.
  apply (setBounds_yearly_monthly_line_matches_call show_g (0%float, false)
           (mkAction "Set Bounds For Yearly Data" "Bounds Set") (session [tas; pr])).
  left. reflexivity.
Defined.
End MenuSpec.

(** ** The installer *)

Module InstallSpec.
Import InstallNightly.

Section Script.

Variables SUCCESS FAILURE : Z.
Variable install_miniconda : OptionValue → OptionValue → Z * string.
Variable install : string → OptionValue → OptionValue → Z.
Variable install_packages_for_tests : string → OptionValue → OptionValue → Z.

Lemma step_then {A B : Type} (s : Step) (result : A) (k : A → Proc B) (t : list Step) :
  (run_step s result ≫= k) t = k result (t ++ [s]).
Proof. reflexivity. Qed.

Lemma check_failed {B : Type} (status : Z) (k : unit → Proc B) (t : list Step) :
  status ≠ SUCCESS →
  ((if negb (status =? SUCCESS)%Z then sys_exit FAILURE else mret tt) ≫= k) t
  = (Exit FAILURE, t).
Proof. intros H. apply Z.eqb_neq in H. by rewrite H. Qed.

Lemma check_passed {B : Type} (k : unit → Proc B) (t : list Step) :
  ((if negb (SUCCESS =? SUCCESS)%Z then sys_exit FAILURE else mret tt) ≫= k) t = k tt t.
Proof. by rewrite Z.eqb_refl. Qed.

(** C4: when [install_miniconda] returns a status other than [SUCCESS],
    the only step run is [install_miniconda] ([install] and
    [install_packages_for_tests] are not run) and the process exits with
    [FAILURE], which is not zero ([Const.py] is not among the sources; that
    [FAILURE] is nonzero is the specification's "nonzero on failure"). *)
Theorem miniconda_failure_stops_the_script (workdir py_ver : OptionValue) :
  (install_miniconda workdir workdir).1 ≠ SUCCESS →
  FAILURE ≠ 0%Z →
  steps_run (run SUCCESS FAILURE install_miniconda install install_packages_for_tests workdir py_ver) = [Run_install_miniconda workdir] ∧
  exit_code (run SUCCESS FAILURE install_miniconda install install_packages_for_tests workdir py_ver) = Some FAILURE ∧
  exit_code (run SUCCESS FAILURE install_miniconda install install_packages_for_tests workdir py_ver) ≠ Some 0%Z.
Proof.
  intros Hstatus Hfail. unfold run, main.
  rewrite step_then. destruct (install_miniconda workdir workdir) as [status conda_path].
  cbn [fst] in Hstatus. rewrite check_failed by done.
  repeat split. cbn. congruence.
Qed.

(** C5 (as amended): when [install_miniconda] and [install] both return
    [SUCCESS], all three steps run and the script ends in [sys.exit] with
    exactly the status [install_packages_for_tests] returns, whatever it
    is; the exit status of the process is that status modulo 256, which is
    the status itself exactly when it lies between 0 and 255. *)
Theorem exit_status_is_test_packages_status_mod_256 (workdir py_ver : OptionValue) :
  let conda_path := (install_miniconda workdir workdir).2 in
  let status := install_packages_for_tests conda_path workdir py_ver in
  let r := run SUCCESS FAILURE install_miniconda install install_packages_for_tests
               workdir py_ver in
  (install_miniconda workdir workdir).1 = SUCCESS →
  install conda_path workdir py_ver = SUCCESS →
  steps_run r
  = [ Run_install_miniconda workdir;
      Run_install conda_path workdir py_ver;
      Run_install_packages_for_tests conda_path workdir py_ver ] ∧
  exit_code r = Some status ∧
  exit_status r = Some (status mod 256)%Z ∧
  (exit_status r = Some status ↔ (0 ≤ status < 256)%Z).
Proof.
  intros conda_path status r H1 H2. subst conda_path status r. unfold run, main.
  rewrite step_then. destruct (install_miniconda workdir workdir) as [status conda_path].
  cbn [fst snd] in *. subst status. rewrite check_passed.
  rewrite step_then, H2, check_passed, step_then.
  unfold steps_run, exit_code, exit_status, sys_exit. cbn [fst snd app].
  split; [done|]. split; [done|]. split; [done|].
  split.
  - intros [= E]. rewrite <- E. apply Z.mod_pos_bound. lia.
  - intros H. by rewrite Z.mod_small.
Qed.

End Script.

Lemma miniconda_failure_example :
  let r := run 0 1 (miniconda 1) (λ _ _ _, 0%Z) (λ _ _ _, 0%Z) (Some "/tmp/w") (Some "py3") in
  steps_run r = [Run_install_miniconda (Some "/tmp/w")] ∧
  exit_code r = Some 1%Z ∧
  exit_code r ≠ Some 0%Z.
Proof.
  apply (miniconda_failure_stops_the_script 0 1 (miniconda 1) (λ _ _ _, 0%Z) (λ _ _ _, 0%Z)
           (Some "/tmp/w") (Some "py3")); cbn; lia.
Defined.

Lemma exit_status_is_test_packages_status_example :
  let r := run 0 1 (miniconda 0) (λ _ _ _, 0%Z) (λ _ _ _, 3%Z) (Some "/tmp/w") (Some "py3") in
  steps_run r
  = [ Run_install_miniconda (Some "/tmp/w");
      Run_install "/tmp/w/miniconda" (Some "/tmp/w") (Some "py3");
      Run_install_packages_for_tests "/tmp/w/miniconda" (Some "/tmp/w") (Some "py3") ] ∧
  exit_code r = Some 3%Z ∧
  exit_status r = Some (3 mod 256)%Z ∧
  (exit_status r = Some 3%Z ↔ (0 ≤ 3 < 256)%Z).
Proof.
  apply (exit_status_is_test_packages_status_mod_256 0 1 (miniconda 0)
           (λ _ _ _, 0%Z) (λ _ _ _, 3%Z) (Some "/tmp/w") (Some "py3")); reflexivity.
Defined.

(** C5, counterexample: with the first two steps successful, a third step
    that returns 256 makes the process exit with status 0, and one that
    returns -9 with status 247: not the status of the step. *)
Lemma test_packages_status_256_exits_with_0 :
  let r256 := run 0 1 (miniconda 0) (λ _ _ _, 0%Z) (λ _ _ _, 256%Z)
                  (Some "/tmp/w") (Some "py3") in
  let r9 := run 0 1 (miniconda 0) (λ _ _ _, 0%Z) (λ _ _ _, (-9)%Z)
                (Some "/tmp/w") (Some "py3") in
  exit_code r256 = Some 256%Z ∧ exit_status r256 = Some 0%Z ∧
  exit_code r9 = Some (-9)%Z ∧ exit_status r9 = Some 247%Z ∧
  exit_status r256 ≠ Some 256%Z ∧ exit_status r9 ≠ Some (-9)%Z.
Proof. repeat split; intros H; discriminate H. Qed.

End InstallSpec.

(** * Further properties of the handlers *)

Module MenuMore.
Import MainMenuWidget MenuSpec.

(** *** Fields a statement leaves alone *)

Lemma unchanged_refl {B : Type} (f : World → B) w : unchanged f w w.
Proof. reflexivity. Qed.

Lemma unchanged_trans {B : Type} (f : World → B) w1 w2 w3 :
  unchanged f w1 w2 → unchanged f w2 w3 → unchanged f w1 w3.
Proof. unfold unchanged. congruence. Qed.

Lemma pool_grows_refl w : pool_grows w w.
Proof. by unfold pool_grows. Qed.

Lemma pool_grows_trans w1 w2 w3 : pool_grows w1 w2 → pool_grows w2 w3 → pool_grows w1 w3.
Proof. unfold pool_grows. intros H1 H2. by etrans. Qed.

Ltac kept := intros w; unfold unchanged, pool_grows; cbn; done.

Lemma record_keeps_dialogs line : preserves (unchanged dialogs) (record line).
Proof. kept. Qed.
Lemma call_keeps_dialogs f args : preserves (unchanged dialogs) (call f args).
Proof. kept. Qed.
Lemma addVariable_keeps_dialogs v : preserves (unchanged dialogs) (addVariable v).
Proof. kept. Qed.
Lemma set_self_keeps_dialogs s : preserves (unchanged dialogs) (set_self s).
Proof. kept. Qed.

Lemma record_keeps_pool line : preserves pool_grows (record line).
Proof. kept. Qed.
Lemma call_keeps_pool f args : preserves pool_grows (call f args).
Proof. kept. Qed.
Lemma set_self_keeps_pool s : preserves pool_grows (set_self s).
Proof. kept. Qed.
Lemma getDouble_keeps_pool ans ttl lbl : preserves pool_grows (getDouble ans ttl lbl).
Proof. kept. Qed.
Lemma addVariable_grows_pool v : preserves pool_grows (addVariable v).
Proof. intros w. unfold pool_grows. cbn. by apply prefix_app_r. Qed.

Lemma record_keeps_pool_size line : preserves (unchanged (λ w, definedVars w)) (record line).
Proof. kept. Qed.
Lemma call_keeps_pool_size f args : preserves (unchanged (λ w, definedVars w)) (call f args).
Proof. kept. Qed.
Lemma set_self_keeps_pool_size s : preserves (unchanged (λ w, definedVars w)) (set_self s).
Proof. kept. Qed.
Lemma getDouble_keeps_pool_size ans ttl lbl :
  preserves (unchanged (λ w, definedVars w)) (getDouble ans ttl lbl).
Proof. kept. Qed.

#[local] Hint Resolve record_keeps_dialogs call_keeps_dialogs addVariable_keeps_dialogs
  set_self_keeps_dialogs record_keeps_pool call_keeps_pool set_self_keeps_pool
  getDouble_keeps_pool addVariable_grows_pool record_keeps_pool_size call_keeps_pool_size
  set_self_keeps_pool_size getDouble_keeps_pool_size : handler_steps.

Ltac walk_unchanged f := walk (unchanged f) (unchanged_refl f) (unchanged_trans f).
Ltac walk_pool := walk pool_grows pool_grows_refl pool_grows_trans.

(** *** Dialogs *)

Lemma setBounds_apply_keeps_dialogs fmt_g nm val :
  preserves (unchanged dialogs) (setBounds_apply fmt_g nm val).
Proof. unfold setBounds_apply, setBounds_body. walk_unchanged dialogs. Qed.

Lemma seasons_keeps_dialogs times a : preserves (unchanged dialogs) (seasons times a).
Proof. unfold seasons, seasons_body, times_attr, get_attr, apply_func, set_id. walk_unchanged dialogs. Qed.

Lemma stats_keeps_dialogs a : preserves (unchanged dialogs) (stats a).
Proof. unfold stats, pop_show, set_pop. walk_unchanged dialogs. Qed.

(** X3: [setBounds] shows the frequency dialog exactly when the label is
    "Set Bounds For X-Daily Data", and then exactly once, whatever the
    answer and whatever is selected; [seasons] and [stats] never show a
    dialog. *)
Theorem dialog_shown_once_for_xdaily_only
    (times : string → option TimesAttr) (fmt_g : float → string) (ans : float * bool)
    (a : QAction) (w : World) :
  dialogs (setBounds fmt_g ans a w).2
  = (if String.eqb (text a) "Set Bounds For X-Daily Data"
     then dialogs w ++ [("Reset Time Bounds to X-Hourly", "Frequency (# of samples per day)")]
     else dialogs w) ∧
  dialogs (seasons times a w).2 = dialogs w ∧
  dialogs (stats a w).2 = dialogs w.
Proof.
  split; [|split; [apply seasons_keeps_dialogs | apply stats_keeps_dialogs]].
  destruct ans as [val ok].
  destruct (String.eqb (text a) "Set Bounds For X-Daily Data") eqn:E.
  - rewrite setBounds_xdaily by done.
    destruct (negb ok || (val <=? 0)%float); [done|].
    by rewrite (setBounds_apply_keeps_dialogs fmt_g (text a) (Some val) (after_dialog w)).
  - rewrite setBounds_other by done. apply setBounds_apply_keeps_dialogs.
Qed.

(** *** The pool *)

Lemma seasons_grows_pool times a : preserves pool_grows (seasons times a).
Proof. unfold seasons, seasons_body, times_attr, get_attr, apply_func, set_id. walk_pool. Qed.

Lemma setBounds_keeps_pool fmt_g ans a :
  preserves (unchanged (λ w, definedVars w)) (setBounds fmt_g ans a).
Proof.
  unfold setBounds, setBounds_apply, setBounds_body, set_bDialog.
  walk_unchanged (λ w, definedVars w).
Qed.

Lemma stats_keeps_pool a : preserves (unchanged (λ w, definedVars w)) (stats a).
Proof. unfold stats, pop_show, set_pop. walk_unchanged (λ w, definedVars w). Qed.

(** X4: the variable pool only grows: after [seasons], also when it raises,
    the pool before is a prefix of the pool after; [setBounds] and [stats]
    add no variable to the pool and remove none. *)
Theorem pool_only_grows
    (times : string → option TimesAttr) (fmt_g : float → string) (ans : float * bool)
    (a : QAction) (w : World) :
  definedVars w `prefix_of` definedVars (seasons times a w).2 ∧
  map var_id (definedVars (setBounds fmt_g ans a w).2) = map var_id (definedVars w) ∧
  map var_id (definedVars (stats a w).2) = map var_id (definedVars w).
Proof.
  split; [apply seasons_grows_pool|]. split.
  - by rewrite (setBounds_keeps_pool fmt_g ans a w).
  - by rewrite (stats_keeps_pool a w).
Qed.

(** *** [stats] *)

Lemma stats_run a w :
  stats a w
  = match statsFuncs (self w) !! text a with
    | Some d =>
        (Ok tt, mkWorld (mkWidget (menus (self w)) (statsFuncs (self w))
                                  (Some (mkPopUp d true)) (bDialog (self w)))
                        (recorder w) (definedVars w) (selectedVars w) (extCalls w) (dialogs w))
    | None => (Raise (KeyError (text a)), w)
    end.
Proof.
  unfold stats. rewrite bind_run. cbn.
  by destruct (statsFuncs (self w) !! text a).
Qed.

(** X5: [stats] returns normally exactly when the label is a key of
    [statsFuncs] and raises [KeyError] carrying the label otherwise; either
    way it records nothing, calls nothing in the external library and leaves
    the pool and the selection alone, and when it raises the widget is as
    before too (an earlier popup stays). *)
Theorem stats_raises_on_missing_key_and_touches_only_the_widget (a : QAction) (w : World) :
  let r := stats a w in
  r.1 = (if bool_decide (is_Some (statsFuncs (self w) !! text a))
         then Ok tt else Raise (KeyError (text a))) ∧
  (if bool_decide (is_Some (statsFuncs (self w) !! text a)) then True else r.2 = w) ∧
  recorder r.2 = recorder w ∧ extCalls r.2 = extCalls w ∧
  definedVars r.2 = definedVars w ∧ selectedVars r.2 = selectedVars w.
Proof.
  cbv zeta. rewrite stats_run.
  destruct (statsFuncs (self w) !! text a) as [d|] eqn:E.
  - rewrite bool_decide_eq_true_2 by eauto. done.
  - rewrite bool_decide_eq_false_2 by (intros [? ?]; done). done.
Qed.

(** The actions of the "Statistics" menu for a table [d] (lines 79-80). *)
Lemma elem_of_sorted_keys {V : Type} (d : gmap string V) (k : string) :
  k ∈ sorted_keys d ↔ is_Some (d !! k).
Proof.
  unfold sorted_keys. rewrite merge_sort_Permutation, list_elem_of_fmap. split.
  - intros ([k' v] & -> & Hin). apply elem_of_map_to_list in Hin. eauto.
  - intros [v Hv]. exists (k, v). split; [done|]. by apply elem_of_map_to_list.
Qed.

Lemma statsFuncs_init_bounds :
  map_Forall (λ _ d, (1 ≤ nargsMin d ∧ nargsMin d ≤ nargsMax d ∧ nargsMax d ≤ 3)%nat) statsFuncs_init.
Proof. apply (bool_decide_unpack _). vm_compute. exact I. Qed.

Lemma statistics_menu_of_init (m : Menu) :
  m ∈ menus init → title m = "Statistics" → actions m = sorted_keys statsFuncs_init.
Proof.
  unfold init. cbn [menus]. unfold season_menus. cbn [map app].
  rewrite !elem_of_cons, elem_of_nil.
  intros [->|[->|[->|[->|[->|[]]]]]]; cbn; intros H; try discriminate H. done.
Qed.

(** X6: on a widget as [__init__] built it, the "Statistics" menu offers
    exactly the keys of [statsFuncs], each once, in ascending order: fifteen
    actions. *)
Theorem statistics_menu_lists_each_key_once_sorted (s : QMenuWidget) (m : Menu) :
  as_built s →
  m ∈ menus s →
  title m = "Statistics" →
  (∀ k, k ∈ actions m ↔ is_Some (statsFuncs s !! k)) ∧
  NoDup (actions m) ∧
  Sorted String.le (actions m) ∧
  length (actions m) = 15.
Proof.
  intros [Hmenus Htable] Hm Htitle. rewrite Hmenus in Hm.
  rewrite (statistics_menu_of_init m Hm Htitle), Htable.
  split; [apply elem_of_sorted_keys|]. split; [|split].
  - unfold sorted_keys. rewrite merge_sort_Permutation.
    apply NoDup_fst_map_to_list.
  - unfold sorted_keys. apply (Sorted_merge_sort String.le).
  - vm_compute. reflexivity.
Qed.

Lemma statistics_menu_example :
  let m := mkMenu "Statistics" (sorted_keys statsFuncs_init) in
  (∀ k, k ∈ actions m ↔ is_Some (statsFuncs init !! k)) ∧
  NoDup (actions m) ∧
  Sorted String.le (actions m) ∧
  length (actions m) = 15.
Proof.
  apply (statistics_menu_lists_each_key_once_sorted init
           (mkMenu "Statistics" (sorted_keys statsFuncs_init))).
  - split; reflexivity.
  - unfold init. cbn [menus]. rewrite elem_of_cons, elem_of_app. right. right.
    apply list_elem_of_singleton. reflexivity.
  - reflexivity.
Defined.

(** X7: on a widget as [__init__] built it, [stats] never raises for an
    action the "Statistics" menu offers: it finds the action's entry of
    [statsFuncs] and leaves in [self.pop] a popup for that entry, shown; the
    entry's argument counts satisfy [1 <= nargsMin <= nargsMax <= 3]. *)
Theorem stats_opens_popup_for_offered_action (a : QAction) (w : World) :
  as_built (self w) →
  offers (self w) a →
  parentTitle a = "Statistics" →
  ∃ d, statsFuncs_init !! text a = Some d ∧
       (stats a w).1 = Ok tt ∧
       pop (self (stats a w).2) = Some (mkPopUp d true) ∧
       (1 ≤ nargsMin d ∧ nargsMin d ≤ nargsMax d ∧ nargsMax d ≤ 3)%nat.
Proof.
  intros [Hmenus Htable] (m & Hm & Htitle & Hact) Hstat.
  rewrite Hmenus in Hm. rewrite Hstat in Htitle.
  rewrite (statistics_menu_of_init m Hm Htitle) in Hact.
  apply elem_of_sorted_keys in Hact as [d Hd].
  exists d. split; [done|]. rewrite stats_run, Htable, Hd. cbn.
  split; [done|]. split; [done|]. exact (statsFuncs_init_bounds _ _ Hd).
Qed.

Lemma stats_opens_popup_example :
  ∃ d, statsFuncs_init !! "Covariance" = Some d ∧
       (stats (mkAction "Covariance" "Statistics") (session [tas])).1 = Ok tt ∧
       pop (self (stats (mkAction "Covariance" "Statistics") (session [tas])).2)
       = Some (mkPopUp d true) ∧
       (1 ≤ nargsMin d ∧ nargsMin d ≤ nargsMax d ∧ nargsMax d ≤ 3)%nat.
Proof.
  apply (stats_opens_popup_for_offered_action
           (mkAction "Covariance" "Statistics") (session [tas])).
  - split; reflexivity.
  - exists (mkMenu "Statistics" (sorted_keys statsFuncs_init)).
    split; [|split; [reflexivity|]].
    + unfold session, init. cbn [self menus]. rewrite elem_of_cons, elem_of_app. right. right.
      apply list_elem_of_singleton. reflexivity.
    + cbn [actions text]. apply elem_of_sorted_keys. exists (mkStatDef (genutil_statistics "covariance") 2 3 centered_biased_pct). reflexivity.
  - reflexivity.
Defined.

(** *** [seasons] *)

(** X8: when [cdutil.times] has the attribute the label resolves to, the
    attribute has the operator of the menu, and the call returns a new
    variable for each selected variable, [seasons] returns normally and, for
    each selected variable in order, calls that attribute (its
    [climatology] or [departures] under the menus of these names), adds the
    result to the pool under the new identifier, and notes two lines: a
    header and the assignment.  The header is ["## Computing <label
    lowercased>"] only under the other menus; under "Climatology" and
    "Departures" it is ["climatological <label>"] and ["departures from
    <label>"], with no comment mark.  Nothing else changes. *)
Theorem seasons_calls_adds_and_notes_per_variable
    (times : string → option TimesAttr) (a : QAction) (w : World)
    (o : TimesAttr) (func : Callable) :
  times (season_attr (text a)) = Some o →
  operator_of o (parentTitle a) = Some func →
  Forall (λ v, func v = ReturnsVariable) (selectedVars w) →
  let f := seasons_callee (parentTitle a) (text a) in
  let newid v := expected_id (parentTitle a) (text a) (var_id v) in
  seasons times a w
  = (Ok tt,
     emit (map (λ v, mkCall f [AVar v]) (selectedVars w))
          (flat_map (λ v, [seasons_header (parentTitle a) (text a);
                           newid v +:+ " = " +:+ PyStr.join "." f +:+ "(" +:+ var_id v +:+ ")"])
                    (selectedVars w))
          (map (λ v, mkVar (newid v) (Applied f (var_data v))) (selectedVars w)) w).
Proof. apply seasons_found. Qed.

Lemma seasons_calls_adds_and_notes_example :
  seasons cdutil_times (mkAction "Annual Means" "Climatology") (session [tas])
  = (Ok tt,
     emit [mkCall ["cdutil"; "times"; "YEAR"; "climatology"] [AVar tas]]
          ["climatological annual means";
           "tas_annualmeansclimatology = cdutil.times.YEAR.climatology(tas)"]
          [mkVar "tas_annualmeansclimatology"
                 (Applied ["cdutil"; "times"; "YEAR"; "climatology"] (var_data tas))]
          (session [tas])).
Proof.
  apply (seasons_calls_adds_and_notes_per_variable cdutil_times
           (mkAction "Annual Means" "Climatology") (session [tas])
           extractor (λ _, ReturnsVariable)).
  - reflexivity.
  - reflexivity.
  - repeat constructor.
Defined.

(** X9: [seasons] returns normally exactly when [cdutil.times] has the
    attribute the label resolves to, the attribute has the operator of the
    menu, and the call returns a new variable for every selected variable.
    When the attribute is missing, or the operator is missing on it, the
    handler raises [AttributeError] for the missing name before anything is
    done: the world is as it was, whatever is selected. *)
Theorem seasons_returns_exactly_when_every_call_returns
    (times : string → option TimesAttr) (a : QAction) (w : World) :
  ((seasons times a w).1 = Ok tt ↔
   ∃ o func, times (season_attr (text a)) = Some o ∧
             operator_of o (parentTitle a) = Some func ∧
             Forall (λ v, func v = ReturnsVariable) (selectedVars w)) ∧
  (times (season_attr (text a)) = None →
   seasons times a w = (Raise (AttributeError (season_attr (text a))), w)) ∧
  (∀ o, times (season_attr (text a)) = Some o →
        operator_of o (parentTitle a) = None →
        seasons times a w = (Raise (AttributeError (operator_name (parentTitle a))), w)).
Proof.
  split; [split|split].
  - apply seasons_ok_inv.
  - intros (o & func & Ho & Hf & Hsel). by rewrite (seasons_found times a w o func Ho Hf Hsel).
  - intros H. by rewrite seasons_cases, H.
  - intros o Ho Hf. by rewrite seasons_cases, Ho, Hf.
Qed.

(** X18: [seasons] does not undo what it did when a call fails.  When the
    calls return a new variable for the first selected variables and fail
    at the next one ([func] is not callable, the call raises, or it returns
    an object whose [id] cannot be set), the handler raises at that
    variable: the calls, results and transcript lines of the variables
    before it stay, the failing call itself is in the list of calls unless
    [func] was not callable, nothing is noted or added for the failing
    variable, and the variables after it are not touched. *)
Theorem seasons_stops_at_first_failure_keeping_earlier_results
    (times : string → option TimesAttr) (a : QAction) (w : World)
    (o : TimesAttr) (func : Callable)
    (done : list Var) (v : Var) (rest : list Var) (e : Exn) (called : bool) :
  times (season_attr (text a)) = Some o →
  operator_of o (parentTitle a) = Some func →
  selectedVars w = done ++ v :: rest →
  Forall (λ u, func u = ReturnsVariable) done →
  failure_of (func v) = Some (e, called) →
  let f := seasons_callee (parentTitle a) (text a) in
  let newid u := expected_id (parentTitle a) (text a) (var_id u) in
  seasons times a w
  = (Raise e,
     emit (map (λ u, mkCall f [AVar u]) done ++ (if called then [mkCall f [AVar v]] else []))
          (flat_map (λ u, [seasons_header (parentTitle a) (text a);
                           newid u +:+ " = " +:+ PyStr.join "." f +:+ "(" +:+ var_id u +:+ ")"])
                    done)
          (map (λ u, mkVar (newid u) (Applied f (var_data u))) done) w).
Proof.
  intros Ho Hf Hsel Hdone Hv. cbv zeta. rewrite seasons_cases, Ho, Hf, Hsel.
  rewrite (for_each_stops _ _ _ _ _ done v rest e _
             (λ u w Hu, seasons_body_returns _ _ func _ _ _ u w Hu) Hdone
             (λ w, seasons_body_fails _ _ func _ _ _ v e called w Hv)).
  by rewrite !flat_map_singleton.
Qed.

Lemma seasons_stops_at_first_failure_example :
  seasons (cdutil_times_failing_on "pr") (mkAction "DJF" "Extract") (session [tas; pr; tas])
  = (Raise (ExternalError "no time axis"),
     emit [mkCall ["cdutil"; "times"; "DJF"] [AVar tas];
           mkCall ["cdutil"; "times"; "DJF"] [AVar pr]]
          ["## Computing djf"; "tas_djf = cdutil.times.DJF(tas)"]
          [mkVar "tas_djf" (Applied ["cdutil"; "times"; "DJF"] (var_data tas))]
          (session [tas; pr; tas])).
Proof.
  apply (seasons_stops_at_first_failure_keeping_earlier_results
           (cdutil_times_failing_on "pr") (mkAction "DJF" "Extract") (session [tas; pr; tas])
           (mkAttr (fails_on "pr") (Some (fails_on "pr")) (Some (fails_on "pr")))
           (fails_on "pr") [tas] pr [tas] (ExternalError "no time axis") true).
  - reflexivity.
  - reflexivity.
  - reflexivity.
  - repeat constructor.
  - reflexivity.
Defined.

(** Attributes of the module that are no extractors: under "Departures"
    the function [setTimeBoundsDaily] has no [departures], and nothing is
    done; under "Extract" it is called and returns [None], whose [id] cannot
    be set; the string [__name__] cannot be called at all. *)
Lemma seasons_on_other_attributes :
  let w := session [tas; pr] in
  seasons cdutil_times (mkAction "setTimeBoundsDaily" "Departures") w
  = (Raise (AttributeError "departures"), w) ∧
  seasons cdutil_times (mkAction "setTimeBoundsDaily" "Extract") w
  = (Raise (AttributeError "id"),
     emit [mkCall ["cdutil"; "times"; "setTimeBoundsDaily"] [AVar tas]] [] [] w) ∧
  seasons cdutil_times (mkAction "__name__" "Extract") w
  = (Raise (TypeError "object is not callable"), w).
Proof. repeat split. Qed.






(** *** Nothing selected *)

(** X12: with nothing selected the handlers call nothing, note nothing and
    add nothing; still, "Set Bounds For X-Daily Data" asks for the frequency
    first, and [seasons] still looks up the attribute and the operator: it
    leaves the world as it was, and returns normally exactly when
    [cdutil.times] has the attribute the label resolves to and the
    attribute has the operator of the menu. *)
Theorem nothing_selected_nothing_done
    (times : string → option TimesAttr) (fmt_g : float → string) (ans : float * bool)
    (a : QAction) (w : World) :
  selectedVars w = [] →
  setBounds fmt_g ans a w
  = (Ok tt, if String.eqb (text a) "Set Bounds For X-Daily Data" then after_dialog w else w) ∧
  (seasons times a w).2 = w ∧
  ((seasons times a w).1 = Ok tt ↔
   ∃ o, times (season_attr (text a)) = Some o ∧ is_Some (operator_of o (parentTitle a))).
Proof.
  intros Hsel. split.
  - destruct ans as [val ok].
    destruct (String.eqb (text a) "Set Bounds For X-Daily Data") eqn:E.
    + rewrite setBounds_xdaily by done.
      destruct (negb ok || (val <=? 0)%float); [done|].
      unfold setBounds_apply. rewrite bind_run. cbn. by rewrite Hsel.
    + rewrite setBounds_other by done.
      unfold setBounds_apply. rewrite bind_run. cbn. by rewrite Hsel.
  - rewrite seasons_cases, Hsel.
    destruct (times (season_attr (text a))) as [o|]; cbn.
    + destruct (operator_of o (parentTitle a)) as [func|] eqn:Hf; cbn.
      * split; [done|]. split; [|done]. intros _. exists o. by rewrite Hf.
      * split; [done|]. split; [done|]. intros (o' & [= <-] & [? H]). by rewrite Hf in H.
    + split; [done|]. split; [done|]. by intros (o' & [=] & _).
Qed.

Lemma nothing_selected_nothing_done_example :
  let a := mkAction "Set Bounds For X-Daily Data" "Bounds Set" in
  let w := session [] in
  setBounds show_g (2.5%float, true) a w
  = (Ok tt, if String.eqb (text a) "Set Bounds For X-Daily Data" then after_dialog w else w) ∧
  (seasons cdutil_times a w).2 = w ∧
  ((seasons cdutil_times a w).1 = Ok tt ↔
   ∃ o, cdutil_times (season_attr (text a)) = Some o ∧ is_Some (operator_of o (parentTitle a))).
Proof.
  apply (nothing_selected_nothing_done cdutil_times show_g (2.5%float, true)
           (mkAction "Set Bounds For X-Daily Data" "Bounds Set") (session [])).
  reflexivity.
Defined.

(** *** The lines noted for the daily setters *)

(** For the five labels served by [setTimeBoundsDaily], the body of the loop
    calls that function and notes a line that names another one. *)
Lemma setBounds_body_daily (fmt_g : float → string) (nm : string) (val : float) :
  nm ∈ [ "Set Bounds For Daily Data"; "Set Bounds For Twice-daily Data";
         "Set Bounds For 6-Hourly Data"; "Set Bounds For Hourly Data";
         "Set Bounds For X-Daily Data" ] →
  ∃ (c : Var → ExtCall) (line : Var → string),
    (∀ vo, (nm = "Set Bounds For X-Daily Data" → vo = Some val) →
       ∀ v w, setBounds_body fmt_g nm vo v w
              = (Ok tt, emit [c v] ["## " +:+ nm; line v] [] w)) ∧
    ∀ v, callee (c v) = setTimeBoundsDaily ∧ line v ≠ render_call fmt_g (c v).
Proof.
  rewrite !elem_of_cons, elem_of_nil.
  intros [->|[->|[->|[->|[->|[]]]]]].
  all: unfold setBounds_body; eval_eqb.
  1-4: eexists _, (λ v, _); split;
    [ intros vo _ v w; by rewrite branch_emit
    | intros v; split; [reflexivity | intros E; cbv in E; discriminate E] ].
  eexists _, (λ v, _); split;
    [ intros vo Hvo v w; rewrite (Hvo eq_refl); by rewrite branch_emit
    | intros v; split; [reflexivity | intros E; cbv in E; discriminate E] ].
Qed.

(** X16: for each of the five labels served by [setTimeBoundsDaily] (for
    X-Daily, once the dialog was accepted with a value that is not [<= 0]),
    whatever the selected variables and the rendering of the frequency, the
    call made on a variable is a call of [cdutil.times.setTimeBoundsDaily] and
    the line noted for it is never that call as Python text. *)
Theorem setBounds_daily_lines_never_match_call
    (fmt_g : float → string) (val : float) (ok : bool) (a : QAction) (w : World) :
  text a ∈ [ "Set Bounds For Daily Data"; "Set Bounds For Twice-daily Data";
             "Set Bounds For 6-Hourly Data"; "Set Bounds For Hourly Data";
             "Set Bounds For X-Daily Data" ] →
  (text a = "Set Bounds For X-Daily Data" → ok = true ∧ (val <=? 0)%float = false) →
  ∃ (c : Var → ExtCall) (line : Var → string),
    let r := setBounds fmt_g (val, ok) a w in
    extCalls r.2 = extCalls w ++ map c (selectedVars w) ∧
    recorder r.2 = recorder w ++ flat_map (λ v, ["## " +:+ text a; line v]) (selectedVars w) ∧
    ∀ v, callee (c v) = setTimeBoundsDaily ∧ line v ≠ render_call fmt_g (c v).
Proof.
  intros Hnm Hx.
  destruct (setBounds_body_daily fmt_g (text a) val Hnm) as (c & line & Hbody & Hc).
  exists c, line. cbv zeta.
  assert (∃ w1 vo, setBounds fmt_g (val, ok) a w = setBounds_apply fmt_g (text a) vo w1
                   ∧ (text a = "Set Bounds For X-Daily Data" → vo = Some val)
                   ∧ recorder w1 = recorder w ∧ extCalls w1 = extCalls w
                   ∧ selectedVars w1 = selectedVars w) as (w1 & vo & -> & Hvo & Hr & He & Hs).
  { destruct (String.eqb (text a) "Set Bounds For X-Daily Data") eqn:E.
    - apply String.eqb_eq in E. exists (after_dialog w), (Some val).
      destruct (Hx E) as [-> Hpos].
      rewrite setBounds_xdaily by (by rewrite E). rewrite Hpos. done.
    - exists w, None. rewrite setBounds_other by done. repeat split; try done.
      intros E'. rewrite E' in E. done. }
  unfold setBounds_apply. rewrite bind_run. cbn.
  rewrite (for_each_emit _ (λ v, [c v]) (λ v, ["## " +:+ text a; line v]) (λ _, []))
    by (intros; by apply Hbody).
  cbn. rewrite flat_map_singleton, Hr, He, Hs. done.
Qed.

Lemma setBounds_daily_lines_never_match_call_example :
  ∃ (c : Var → ExtCall) (line : Var → string),
    let a := mkAction "Set Bounds For 6-Hourly Data" "Bounds Set" in
    let w := session [tas; pr] in
    let r := setBounds show_g (0%float, false) a w in
    extCalls r.2 = extCalls w ++ map c (selectedVars w) ∧
    recorder r.2 = recorder w ++ flat_map (λ v, ["## " +:+ text a; line v]) (selectedVars w) ∧
    ∀ v, callee (c v) = setTimeBoundsDaily ∧ line v ≠ render_call show_g (c v).
Proof.
  apply (setBounds_daily_lines_never_match_call show_g 0%float false
           (mkAction "Set Bounds For 6-Hourly Data" "Bounds Set") (session [tas; pr])).
  - cbn [text]. rewrite !elem_of_cons. auto.
  - intros E. discriminate E.
Defined.

(** *** Every action of the menus has its branch *)

Lemma offered_in_init (a : QAction) (s : QMenuWidget) :
  as_built s → offers s a →
  (parentTitle a = "Bounds Set" ∧ text a ∈ bounds_labels) ∨
  (parentTitle a ∈ season_menus ∧ text a ∈ season_labels) ∨
  (parentTitle a = "Statistics" ∧ text a ∈ sorted_keys statsFuncs_init).
Proof.
  intros [Hmenus _] (m & Hm & Htitle & Hact). rewrite Hmenus in Hm.
  unfold init in Hm. cbn [menus] in Hm. unfold season_menus in *. cbn [map app] in Hm.
  rewrite !elem_of_cons, elem_of_nil in Hm. rewrite <- Htitle.
  destruct Hm as [->|[->|[->|[->|[->|[]]]]]]; cbn [title actions] in *.
  - by left.
  - right; left. split; [rewrite !elem_of_cons; auto | done].
  - right; left. split; [rewrite !elem_of_cons; auto | done].
  - right; left. split; [rewrite !elem_of_cons; auto | done].
  - by right; right.
Qed.

(** X17: on a widget as [__init__] built it, every action a menu offers
    under "Bounds Set" or under one of the three season menus has a branch in
    the handler connected to that menu: [setBounds] makes one call per
    selected variable (for X-Daily, once the dialog was accepted with a value
    that is not [<= 0]), and [seasons], when [cdutil.times] has the
    extractors of the season labels, returns normally having added one
    variable per selected variable. *)
Theorem offered_time_actions_have_a_branch
    (times : string → option TimesAttr) (fmt_g : float → string) (val : float) (ok : bool)
    (a : QAction) (w : World) :
  as_built (self w) →
  offers (self w) a →
  serves_season_menus times →
  (parentTitle a = "Bounds Set" →
   (text a = "Set Bounds For X-Daily Data" → ok = true ∧ (val <=? 0)%float = false) →
   length (extCalls (setBounds fmt_g (val, ok) a w).2)
   = length (extCalls w) + length (selectedVars w)) ∧
  (parentTitle a ∈ season_menus →
   (seasons times a w).1 = Ok tt ∧
   length (definedVars (seasons times a w).2)
   = length (definedVars w) + length (selectedVars w)).
Proof.
  intros Hbuilt Hoff Hns. split.
  - intros Hp Hx.
    assert (text a ∈ bounds_labels) as Hnm.
    { destruct (offered_in_init a _ Hbuilt Hoff) as [[_ H]|[[H _]|[H _]]]; [done| |].
      - rewrite Hp in H. destruct (not_in_labels "Bounds Set" season_menus eq_refl H).
      - rewrite Hp in H. discriminate H. }
    assert (∃ w1 vo, setBounds fmt_g (val, ok) a w = setBounds_apply fmt_g (text a) vo w1
                     ∧ (text a = "Set Bounds For X-Daily Data" → vo = Some val)
                     ∧ extCalls w1 = extCalls w
                     ∧ selectedVars w1 = selectedVars w) as (w1 & vo & -> & Hvo & He & Hs).
    { destruct (eqb_xdaily_label _ Hnm) as [Hne|Heq].
      - exists w, None. rewrite setBounds_other by done. repeat split; try done.
        intros E. rewrite E in Hne. done.
      - exists (after_dialog w), (Some val). destruct (Hx Heq) as [-> Hpos].
        rewrite setBounds_xdaily by (by rewrite Heq). rewrite Hpos. done. }
    destruct (setBounds_apply_known fmt_g (text a) val vo w1 Hnm Hvo) as (c & line & _ & ->).
    cbn. rewrite length_app, length_map, He, Hs. done.
  - intros Hp.
    assert (text a ∈ season_labels) as Hnm.
    { destruct (offered_in_init a _ Hbuilt Hoff) as [[H _]|[[_ H]|[H _]]]; [|done|].
      - rewrite H in Hp. destruct (not_in_labels "Bounds Set" season_menus eq_refl Hp).
      - rewrite H in Hp. destruct (not_in_labels "Statistics" season_menus eq_refl Hp). }
    destruct (seasons_served times a w Hns Hnm) as (o & func & Ho & Hf & Hsel).
    rewrite (seasons_found times a w o func Ho Hf Hsel). cbn.
    split; [done|]. by rewrite length_app, length_map.
Qed.

Lemma offered_time_actions_have_a_branch_example :
  let a := mkAction "MAM" "Departures" in
  let w := session [tas; pr] in
  (parentTitle a = "Bounds Set" →
   (text a = "Set Bounds For X-Daily Data" → true = true ∧ (2.5 <=? 0)%float = false) →
   length (extCalls (setBounds show_g (2.5%float, true) a w).2)
   = length (extCalls w) + length (selectedVars w)) ∧
  (parentTitle a ∈ season_menus →
   (seasons cdutil_times a w).1 = Ok tt ∧
   length (definedVars (seasons cdutil_times a w).2)
   = length (definedVars w) + length (selectedVars w)).
Proof.
  apply (offered_time_actions_have_a_branch cdutil_times show_g 2.5%float true
           (mkAction "MAM" "Departures") (session [tas; pr])).
  - split; reflexivity.
  - exists (mkMenu "Departures" season_labels). split; [|split; [reflexivity|]].
    + unfold session, init, season_menus. cbn [self menus map app].
      rewrite !elem_of_cons. auto.
    + unfold season_labels. cbn [actions text app]. rewrite !elem_of_cons. auto 10.
  - exact cdutil_times_serves_season_menus.
Defined.

End MenuMore.

(** ** The installer: every run *)

Module InstallMore.
Import InstallNightly InstallSpec.

Section Script.

Variables SUCCESS FAILURE : Z.
Variable install_miniconda : OptionValue → OptionValue → Z * string.
Variable install : string → OptionValue → OptionValue → Z.
Variable install_packages_for_tests : string → OptionValue → OptionValue → Z.

(** The three ways a run can go. *)
Lemma run_cases (workdir py_ver : OptionValue) :
  let s1 := (install_miniconda workdir workdir).1 in
  let conda_path := (install_miniconda workdir workdir).2 in
  let s2 := install conda_path workdir py_ver in
  let s3 := install_packages_for_tests conda_path workdir py_ver in
  run SUCCESS FAILURE install_miniconda install install_packages_for_tests workdir py_ver
  = if negb (s1 =? SUCCESS)%Z then (Exit FAILURE, [Run_install_miniconda workdir])
    else if negb (s2 =? SUCCESS)%Z
         then (Exit FAILURE, [Run_install_miniconda workdir;
                              Run_install conda_path workdir py_ver])
         else (Exit s3, script_steps workdir conda_path py_ver).
Proof.
  cbv zeta. unfold run, main. rewrite step_then.
  destruct (install_miniconda workdir workdir) as [s1 conda_path]. cbn [fst snd].
  destruct (Z.eq_dec s1 SUCCESS) as [->|H1].
  - rewrite check_passed, step_then, Z.eqb_refl. cbn [negb].
    destruct (Z.eq_dec (install conda_path workdir py_ver) SUCCESS) as [E|H2].
    + rewrite E, check_passed, step_then, Z.eqb_refl. reflexivity.
    + rewrite check_failed by done. apply Z.eqb_neq in H2. by rewrite H2.
  - rewrite check_failed by done. apply Z.eqb_neq in H1. by rewrite H1.
Qed.

(** X13: when [install_miniconda] succeeds and [install] returns a status
    other than [SUCCESS], [install] was given the conda path that
    [install_miniconda] returned, [install_packages_for_tests] is not run and
    the process exits with [FAILURE], whatever status [install] returned. *)
Theorem install_failure_skips_test_packages (workdir py_ver : OptionValue) :
  let conda_path := (install_miniconda workdir workdir).2 in
  (install_miniconda workdir workdir).1 = SUCCESS →
  install conda_path workdir py_ver ≠ SUCCESS →
  steps_run (run SUCCESS FAILURE install_miniconda install install_packages_for_tests workdir py_ver)
  = [ Run_install_miniconda workdir; Run_install conda_path workdir py_ver ] ∧
  exit_code (run SUCCESS FAILURE install_miniconda install install_packages_for_tests workdir py_ver)
  = Some FAILURE.
Proof.
  intros conda_path H1 H2. subst conda_path. rewrite run_cases. cbv zeta.
  rewrite H1, Z.eqb_refl. cbn [negb].
  apply Z.eqb_neq in H2. rewrite H2. done.
Qed.

(** X14: once the command line is parsed, and provided [FAILURE] and
    [SUCCESS] differ in their low 8 bits, the exit status of the process is
    that of [SUCCESS] exactly when [install_miniconda] and [install]
    returned [SUCCESS] and the status [install_packages_for_tests] returned
    agrees with [SUCCESS] modulo 256: it need not be [SUCCESS] itself. *)
Theorem exits_with_success_iff_every_step_succeeded (workdir py_ver : OptionValue) :
  (FAILURE mod 256 ≠ SUCCESS mod 256)%Z →
  let conda_path := (install_miniconda workdir workdir).2 in
  exit_status (run SUCCESS FAILURE install_miniconda install install_packages_for_tests
                   workdir py_ver)
  = Some (SUCCESS mod 256)%Z
  ↔ (install_miniconda workdir workdir).1 = SUCCESS ∧
    install conda_path workdir py_ver = SUCCESS ∧
    (install_packages_for_tests conda_path workdir py_ver mod 256 = SUCCESS mod 256)%Z.
Proof.
  intros Hne conda_path. subst conda_path. rewrite run_cases. cbv zeta.
  destruct (Z.eqb_spec (install_miniconda workdir workdir).1 SUCCESS) as [E1|N1]; cbn [negb].
  - destruct (Z.eqb_spec (install (install_miniconda workdir workdir).2 workdir py_ver) SUCCESS)
      as [E2|N2]; cbn [negb]; unfold exit_status; cbn [fst].
    + split; [intros [= E3]; done | intros (_ & _ & ->); done].
    + split; [intros [= E]; done | intros (_ & E & _); done].
  - unfold exit_status; cbn [fst].
    split; [intros [= E]; done | intros (E & _); done].
Qed.

Lemma process_parsed (workdir py_ver : OptionValue) :
  process SUCCESS FAILURE install_miniconda install install_packages_for_tests
          (Parsed workdir py_ver)
  = run SUCCESS FAILURE install_miniconda install install_packages_for_tests workdir py_ver.
Proof. reflexivity. Qed.

(** X15: every run of the script ends in [sys.exit]: it never falls off its
    end.  When [parse_args] itself exits (a usage error, or [-h]), no step
    is run.  Otherwise the steps run are the first one, two or three of
    [install_miniconda], [install], [install_packages_for_tests], in this
    order and each once, the later two on the conda path the first
    returned; and a run that stops before the third step ends in
    [sys.exit(FAILURE)]. *)
Theorem run_exits_after_a_prefix_of_the_steps (cmdline : ParseOutcome) :
  let r := process SUCCESS FAILURE install_miniconda install install_packages_for_tests
                   cmdline in
  (∃ code, exit_code r = Some code) ∧
  match cmdline with
  | ParserExit status => steps_run r = [] ∧ exit_code r = Some status
  | Parsed workdir py_ver =>
      let all := script_steps workdir (install_miniconda workdir workdir).2 py_ver in
      steps_run r `prefix_of` all ∧
      head (steps_run r) = Some (Run_install_miniconda workdir) ∧
      (steps_run r = all ∨ exit_code r = Some FAILURE)
  end.
Proof.
  cbv zeta. destruct cmdline as [workdir py_ver|status].
  - rewrite process_parsed, run_cases. cbv zeta. unfold script_steps.
    destruct (negb _); [|destruct (negb _)]; unfold exit_code, steps_run; cbn [fst snd].
    + split; [by eexists|]. split; [by eexists [_; _]|]. split; [done | by right].
    + split; [by eexists|]. split; [by eexists [_]|]. split; [done | by right].
    + split; [by eexists|]. split; [done|]. split; [done | by left].
  - split; [by eexists | done].
Qed.

End Script.

Lemma install_failure_skips_test_packages_example :
  let r := run 0 1 (miniconda 0) (λ _ _ _, 2%Z) (λ _ _ _, 0%Z) (Some "/tmp/w") (Some "py2") in
  steps_run r = [ Run_install_miniconda (Some "/tmp/w");
                  Run_install "/tmp/w/miniconda" (Some "/tmp/w") (Some "py2") ] ∧
  exit_code r = Some 1%Z.
Proof.
  apply (install_failure_skips_test_packages 0 1 (miniconda 0) (λ _ _ _, 2%Z) (λ _ _ _, 0%Z)
           (Some "/tmp/w") (Some "py2")); cbn; [reflexivity | lia].
Defined.

Lemma exits_with_success_example :
  exit_status (run 0 1 (miniconda 0) (λ _ _ _, 0%Z) (λ _ _ _, 256%Z)
                   (Some "/tmp/w") (Some "py3"))
  = Some (0 mod 256)%Z
  ↔ (miniconda 0 (Some "/tmp/w") (Some "/tmp/w")).1 = 0%Z ∧ 0%Z = 0%Z ∧
    (256 mod 256 = 0 mod 256)%Z.
Proof.
  apply (exits_with_success_iff_every_step_succeeded 0 1 (miniconda 0)
           (λ _ _ _, 0%Z) (λ _ _ _, 256%Z) (Some "/tmp/w") (Some "py3")).
  vm_compute. intros H. discriminate H.
Defined.

End InstallMore.
